(** * Multilingual Mandi: the translation cache, the rate store and the
      opening-price suggestion, embedded from the Python sources.

    Layout: the first part holds the definitions, one module per source
    file; the second part holds the lemmas and the theorems about them.

    The rate store is embedded twice.  [market_service] has rational
    prices and serves for what does not depend on the value of a price:
    which records exist, how they are shared, how many prices they
    record and in which order.  [market_service_binary64] has the
    binary64 prices of the interpreter, with its arithmetic, comparisons
    and [round]; what is said about the value of a price is said there. *)

From Stdlib Require Import ZArith QArith Qpower Qround Qabs Lqa Lia List String Ascii.
From Stdlib Require Import PrimFloat FloatOps SpecFloat FloatAxioms.
From stdpp Require Import gmap list.

Set Default Proof Using "Type".
Set Warnings "-inexact-float".

(* ===================================================================== *)
(** * Part 1: definitions                                                 *)
(* ===================================================================== *)

(** ** Python values used by the sources *)

Module Py.

(** A Python [str] is a sequence of Unicode code points. *)
Definition char := N.
Definition str := list char.

(** Source literals.  [utf8] decodes the bytes of a literal written in
    this file into code points, so that the seeded names can be written
    as they appear in the source. *)
Fixpoint utf8 (bs : list N) : str :=
  match bs with
  | [] => []
  | b :: rest =>
    if (b <? 128)%N then b :: utf8 rest
    else if (b <? 224)%N then
      match rest with
      | c1 :: rest1 =>
          N.lor (N.shiftl (N.land b 31) 6) (N.land c1 63) :: utf8 rest1
      | _ => []
      end
    else if (b <? 240)%N then
      match rest with
      | c1 :: c2 :: rest2 =>
          N.lor (N.shiftl (N.land b 15) 12)
            (N.lor (N.shiftl (N.land c1 63) 6) (N.land c2 63)) :: utf8 rest2
      | _ => []
      end
    else
      match rest with
      | c1 :: c2 :: c3 :: rest3 =>
          N.lor (N.shiftl (N.land b 7) 18)
            (N.lor (N.shiftl (N.land c1 63) 12)
               (N.lor (N.shiftl (N.land c2 63) 6) (N.land c3 63))) :: utf8 rest3
      | _ => []
      end
  end.

Definition lit (s : string) : str :=
  utf8 (map N_of_ascii (list_ascii_of_string s)).
Arguments lit s%_string : simpl never.

(** [str.isspace] on one code point: the characters CPython classifies
    as whitespace, which are the ones [str.strip()] removes. *)
Definition isspace (c : char) : bool :=
  ((9 <=? c) && (c <=? 13) || (28 <=? c) && (c <=? 32)
   || (c =? 133) || (c =? 160) || (c =? 5760)
   || (8192 <=? c) && (c <=? 8202)
   || (c =? 8232) || (c =? 8233) || (c =? 8239) || (c =? 8287)
   || (c =? 12288))%N.

Fixpoint lstrip (s : str) : str :=
  match s with
  | [] => []
  | c :: s' => if isspace c then lstrip s' else s
  end.

Definition strip (s : str) : str := rev (lstrip (rev (lstrip s))).

(** Truth value of a sequence: empty is false. *)
Definition truthy {A} (l : list A) : bool :=
  match l with [] => false | _ => true end.

(** [s.replace(" ", "")]: every U+0020 is removed. *)
Definition remove_spaces (s : str) : str :=
  List.filter (fun c => negb (c =? 32)%N) s.

(** The case and alphabetic tables of the Unicode database are not part
    of the repository: [str.lower()] and [str.isalpha()] (on a single
    character) are taken as an interface. *)
Class Unicode := {
  lower : str -> str;
  isalpha : char -> bool
}.

(** The instance used for concrete runs: exact on ASCII text. *)
Definition ascii_lower_char (c : char) : char :=
  if ((65 <=? c) && (c <=? 90))%N then (c + 32)%N else c.
Definition ascii_isalpha (c : char) : bool :=
  ((65 <=? c) && (c <=? 90) || (97 <=? c) && (c <=? 122))%N.
Definition ascii_tables : Unicode :=
  {| lower := map ascii_lower_char; isalpha := ascii_isalpha |}.

(** [l[start:]] for an integer [start] of either sign. *)
Definition slice_from {A} (start : Z) (l : list A) : list A :=
  let len := Z.of_nat (length l) in
  let i := if (start <? 0)%Z then Z.max 0 (len + start) else Z.min start len in
  drop (Z.to_nat i) l.

(** Exceptions: an instance of [ValueError], or of [Exception] or
    another of its subclasses; [str(e)] is the message. *)
Inductive exn :=
| Exception (msg : str)
| ValueError (msg : str).

Definition exn_str (e : exn) : str :=
  match e with Exception msg | ValueError msg => msg end.

(** The result of running a piece of code: it returns or it raises. *)
Inductive outcome (A : Type) :=
| Return (a : A)
| Raise (e : exn).
Arguments Return {A} a.
Arguments Raise {A} e.

(** Code that reads and writes a state [S] and may raise. *)
Definition M (S A : Type) := S -> outcome A * S.

Definition ret {S A} (a : A) : M S A := fun s => (Return a, s).
Definition raise {S A} (e : exn) : M S A := fun s => (Raise e, s).
Definition bind {S A B} (m : M S A) (k : A -> M S B) : M S B :=
  fun s => match m s with
           | (Return a, s') => k a s'
           | (Raise e, s') => (Raise e, s')
           end.
(** [try: body except Exception as e: handler e]; the writes done by
    [body] before it raised are kept. *)
Definition try_except {S A} (body : M S A) (handler : exn -> M S A) : M S A :=
  fun s => match body s with
           | (Return a, s') => (Return a, s')
           | (Raise e, s') => handler e s'
           end.
Definition gets {S A} (f : S -> A) : M S A := fun s => (Return (f s), s).
Definition modify {S} (f : S -> S) : M S unit := fun s => (Return tt, f s).

(** [needle in haystack] on strings: [needle] occurs as a contiguous
    run of [haystack]. *)
Fixpoint startswith (s prefix : str) : bool :=
  match prefix, s with
  | [], _ => true
  | p :: prefix', c :: s' => (p =? c)%N && startswith s' prefix'
  | _ :: _, [] => false
  end.

Fixpoint str_in (needle haystack : str) : bool :=
  startswith haystack needle ||
  match haystack with
  | [] => false
  | _ :: rest => str_in needle rest
  end.

(** A dict literal with string keys, as its items in the order they are
    written, and [d.get(key)] on it: of two items with the same key the
    later one counts. *)
Fixpoint literal_get {V} (key : str) (items : list (str * V)) : option V :=
  match items with
  | [] => None
  | (k, v) :: rest =>
      match literal_get key rest with
      | Some later => Some later
      | None => if bool_decide (k = key) then Some v else None
      end
  end.

End Py.

Declare Scope py_scope.
Delimit Scope py_scope with py.
Notation "x <- m ;; k" := (Py.bind m (fun x => k))
  (at level 100, m at next level, right associativity) : py_scope.
Notation "m ;;; k" := (Py.bind m (fun _ => k))
  (at level 100, right associativity) : py_scope.

(** ** translation_service.py *)

Module translation_service.
Import Py.

(** One call of [GeminiClient.translate_text(text, source, target)]. *)
Definition request := (str * str * str)%type.

(** The gateway is an external service: what it answers may depend on
    the requests it has served before.  It returns the translation or
    raises. *)
Definition gateway := list request -> request -> exn + str.

(** [st.session_state] of the session in which the service was built,
    and what the service does to the outside: the cache, the gateway
    calls made so far (oldest first) and the messages shown with
    [st.error]. *)
Record session := {
  translation_cache : gmap str str;
  gateway_calls : list request;
  shown_errors : list str
}.

Record TranslationService := {
  gemini_client : option gateway;
  supported_languages : list str
}.

(** [__init__]: the client exists iff an API key is configured. *)
Definition new_service (client : option gateway) : TranslationService :=
  {| gemini_client := client;
     supported_languages := [lit "marathi"; lit "hindi"; lit "english"] |}.

(** A session in which nothing has happened yet. *)
Definition fresh_session : session :=
  {| translation_cache := ∅; gateway_calls := []; shown_errors := [] |}.

Definition cache_store (k v : str) : M session unit :=
  modify (fun s => {| translation_cache := <[k := v]> (translation_cache s);
                      gateway_calls := gateway_calls s;
                      shown_errors := shown_errors s |}).

Definition st_error (msg : str) : M session unit :=
  modify (fun s => {| translation_cache := translation_cache s;
                      gateway_calls := gateway_calls s;
                      shown_errors := shown_errors s ++ [msg] |}).

(** [self.gemini_client.translate_text(...)]: the call is recorded, and
    its answer is returned or raised. *)
Definition translate_text (client : gateway) (req : request) : M session str :=
  fun s =>
    let s' := {| translation_cache := translation_cache s;
                 gateway_calls := gateway_calls s ++ [req];
                 shown_errors := shown_errors s |} in
    match client (gateway_calls s) req with
    | inr translated => (Return translated, s')
    | inl e => (Raise e, s')
    end.

Section WithUnicode.
Context {unicode : Unicode}.

Definition detect_language (text : str) : str :=
  if truthy text && existsb (fun c => (c <? 128)%N) (List.filter isalpha text)
  then lit "english"
  else lit "marathi".

Definition cache_key (text target_language : str) : str :=
  text ++ lit "_" ++ target_language.

Definition translate (self : TranslationService)
    (text target_language : str) : M session str :=
  (if negb (truthy text) || negb (truthy (strip text)) then ret text else
   let target_language := lower target_language in
   if negb (bool_decide (target_language ∈ supported_languages self)) then ret text else
   let cache_key := cache_key text target_language in
   cache <- gets translation_cache ;;
   match cache !! cache_key with
   | Some cached => ret cached
   | None =>
     match gemini_client self with
     | None => ret text
     | Some client =>
       try_except
         (let source_lang := detect_language text in
          if bool_decide (source_lang = target_language) then ret text else
          translated <- translate_text client (text, source_lang, target_language) ;;
          cache_store cache_key translated ;;;
          ret translated)
         (fun e =>
            st_error (lit "Translation failed: " ++ exn_str e) ;;;
            ret text)
     end
   end)%py.

(** What one call of [translate] does: it leaves the session as it is, or
    it asks the gateway exactly once, and then either caches and returns
    the answer or shows the error and returns the text. *)
Inductive translate_run (self : TranslationService) (text target_language : str)
    (s : session) : outcome str * session -> Prop :=
| run_quiet v :
    translate_run self text target_language s (Return v, s)
| run_answer client translated :
    let req := (text, detect_language text, lower target_language) in
    text <> [] -> strip text <> [] ->
    lower target_language ∈ supported_languages self ->
    gemini_client self = Some client ->
    client (gateway_calls s) req = inr translated ->
    translate_run self text target_language s
      (Return translated,
       {| translation_cache :=
            <[cache_key text (lower target_language) := translated]> (translation_cache s);
          gateway_calls := gateway_calls s ++ [req];
          shown_errors := shown_errors s |})
| run_failure client e :
    let req := (text, detect_language text, lower target_language) in
    text <> [] -> strip text <> [] ->
    lower target_language ∈ supported_languages self ->
    gemini_client self = Some client ->
    client (gateway_calls s) req = inl e ->
    translation_cache s !! cache_key text (lower target_language) = None ->
    detect_language text <> lower target_language ->
    translate_run self text target_language s
      (Return text,
       {| translation_cache := translation_cache s;
          gateway_calls := gateway_calls s ++ [req];
          shown_errors := shown_errors s ++ [lit "Translation failed: " ++ exn_str e] |}).

Fixpoint batch_translate (self : TranslationService)
    (texts : list str) (target_language : str) : M session (list str) :=
  (match texts with
   | [] => ret []
   | text :: rest =>
       t <- translate self text target_language ;;
       ts <- batch_translate self rest target_language ;;
       ret (t :: ts)
   end)%py.

Definition clear_cache : M session unit :=
  modify (fun s => {| translation_cache := ∅;
                      gateway_calls := gateway_calls s;
                      shown_errors := shown_errors s |}).

(** The sessions of a service that was built in a session without a
    cache: the fresh one, in which [__init__] has put the empty cache, and
    the ones the operations of this service lead to.  A service built in
    a session whose cache an earlier service has filled is outside:
    [__init__] keeps such a cache, and its sessions are covered by what
    is stated of every session. *)
Inductive reachable (self : TranslationService) : session -> Prop :=
| reach_fresh : reachable self fresh_session
| reach_translate s text target_language :
    reachable self s ->
    reachable self (snd (translate self text target_language s))
| reach_batch s texts target_language :
    reachable self s ->
    reachable self (snd (batch_translate self texts target_language s))
| reach_clear s :
    reachable self s ->
    reachable self (snd (clear_cache s)).

(** During the step from [s] to [s'] the gateway was called and the
    call raised. *)
Definition gateway_raised (self : TranslationService) (s s' : session) : Prop :=
  exists client req e,
    gemini_client self = Some client /\
    gateway_calls s' = gateway_calls s ++ [req] /\
    client (gateway_calls s) req = inl e.

(** How many gateway calls were made between [s] and [s']. *)
Definition invocations (s s' : session) : nat :=
  length (gateway_calls s') - length (gateway_calls s).

(** Two calls in direct succession: same result, and at most one
    gateway call over both. *)
Definition same_and_at_most_once (self : TranslationService)
    (s : session) (text target_language : str) : Prop :=
  let r1 := translate self text target_language s in
  let r2 := translate self text target_language (snd r1) in
  fst r1 = fst r2 /\ invocations s (snd r2) <= 1.

End WithUnicode.

(** Gateways for concrete runs. *)
Definition failing_gateway : gateway :=
  fun _ _ => inl (Exception (lit "503 unavailable")).
Definition echo_gateway : gateway :=
  fun _ '(text, _, target) => inr (lit "[" ++ target ++ lit "] " ++ text).
(** Fails on its first call and answers from then on. *)
Definition flaky_gateway : gateway :=
  fun history req =>
    match history with
    | [] => inl (Exception (lit "timeout"))
    | _ => echo_gateway history req
    end.

(** The session after "hello" has been translated to Hindi once. *)
Definition greeted : session :=
  snd (translate (unicode := ascii_tables) (new_service (Some echo_gateway))
         (lit "hello") (lit "hindi") fresh_session).

End translation_service.

(** ** Numbers, idealised

    In [crop_rate] and [market_service] below a price is an exact
    rational: the rounding error of binary64 [+] and [*] is left out, and
    there is neither an infinity nor a NaN.  [round(x, 2)] rounds to the
    nearest multiple of 1/100, ties to the even one.  The numbers of the
    interpreter follow in [Binary64]. *)

Module Num.

Definition ltb (x y : Q) : bool := negb (Qle_bool y x).

Definition round_half_even (x : Q) : Z :=
  let f := Qfloor x in
  match (x - inject_Z f ?= 1 # 2)%Q with
  | Lt => f
  | Gt => (f + 1)%Z
  | Eq => if Z.even f then f else (f + 1)%Z
  end.

(** [round(x, 2)] *)
Definition round2 (x : Q) : Q := round_half_even (x * 100)%Q # 100.

End Num.

(** ** Numbers as the interpreter has them

    A Python [float] is a binary64 number: [float] below, with [+], [*]
    and [<] of IEEE 754.  [round(x, 2)] is correctly rounded: the exact
    value of [x] is rounded to the nearest decimal with two digits after
    the point, a tie going to the even digit, and the result is the
    binary64 number nearest to that decimal. *)

Module Binary64.

(** [x < y] and [x > y] *)
Definition lt (x y : float) : bool := PrimFloat.ltb x y.
Definition gt (x y : float) : bool := PrimFloat.ltb y x.

(** The integer nearest to [m * 2 ^ e], the even one of two that are
    equally near. *)
Definition nearest_integer (m e : Z) : Z :=
  match e with
  | Zneg p =>
      let d := Z.pow_pos 2 p in
      let '(q, r) := Z.div_eucl m d in
      match (2 * r ?= d)%Z with
      | Lt => q
      | Gt => (q + 1)%Z
      | Eq => if Z.even q then q else (q + 1)%Z
      end
  | _ => (m * 2 ^ e)%Z
  end.

(** The binary64 number nearest to [k / 100], with the sign [negative]:
    the integer [k] divided by 100 and rounded once. *)
Definition hundredths (negative : bool) (k : Z) : float :=
  SF2Prim match k with
          | Zpos p => SFdiv prec emax (S754_finite negative p 0) (S754_finite false 100 0)
          | _ => S754_zero negative
          end.

(** [round(x, 2)]: a finite [x = (-1)^s * m * 2^e] goes to the hundredth
    nearest to it; zeros, infinities and NaN are returned as they are. *)
Definition round2 (x : float) : float :=
  match Prim2SF x with
  | S754_finite s m e => hundredths s (nearest_integer (100 * Zpos m) e)
  | _ => x
  end.

(** The absolute value of a finite number, as a rational. *)
Definition magnitude (m : positive) (e : Z) : Q := (inject_Z (Zpos m) * 2 ^ e)%Q.

(** [y] is [x] rounded to two decimals: for a finite [x] that is not
    zero, [y] is the binary64 number nearest to [k / 100], with the sign
    of [x], where [k] is an integer nearest to [100 * |x|], the even one
    on a tie. *)
Definition rounded_to_hundredths (x y : float) : Prop :=
  match Prim2SF x with
  | S754_finite s m e =>
      exists k : Z,
        (0 <= k)%Z /\ y = hundredths s k /\
        (Qabs (100 * magnitude m e - inject_Z k) <= 1 # 2)%Q /\
        (Qabs (100 * magnitude m e - inject_Z k) == 1 # 2 -> Z.even k = true)%Q
  | _ => y = x
  end.

End Binary64.

(** ** crop_rate.py: the validated record *)

Module crop_rate.
Import Py.

Record CropRate := {
  crop_name : str;
  current_price : Q;
  unit : str;
  market_location : str;
  last_updated : Z;
  trend : str;
  historical_data : option (list Q)
}.

Definition ValueError (msg : string) : exn := Py.ValueError (lit msg).
Arguments ValueError msg%_string.

(** [__post_init__]: the checks, in the order of the source. *)
Definition post_init (self : CropRate) : outcome CropRate :=
  if Num.ltb (current_price self) 0 then
    Raise (ValueError "Current price cannot be negative")
  else if negb (bool_decide (trend self ∈ [lit "up"; lit "down"; lit "stable"])) then
    Raise (ValueError "Trend must be 'up', 'down', or 'stable'")
  else if negb (truthy (strip (crop_name self))) then
    Raise (ValueError "Crop name cannot be empty")
  else if negb (truthy (strip (unit self))) then
    Raise (ValueError "Unit cannot be empty")
  else if negb (truthy (strip (market_location self))) then
    Raise (ValueError "Market location cannot be empty")
  else Return self.

(** The constructor the dataclass generates: fill the fields, then run
    [__post_init__]. *)
Definition new (crop_name : str) (current_price : Q) (unit market_location : str)
    (last_updated : Z) (trend : str) (historical_data : option (list Q))
    : outcome CropRate :=
  post_init (Build_CropRate crop_name current_price unit market_location
               last_updated trend historical_data).

(** What the data model asks of the fields. *)
Definition valid_fields (crop_name : str) (current_price : Q)
    (unit market_location trend : str) : Prop :=
  (0 <= current_price)%Q /\
  trend ∈ [lit "up"; lit "down"; lit "stable"] /\
  strip crop_name <> [] /\ strip unit <> [] /\ strip market_location <> [].

(** [get_trend_indicator]: [trend_symbols.get(self.trend, "→")]. *)
Definition trend_symbols : list (str * str) :=
  [(lit "up", lit "↑"); (lit "down", lit "↓"); (lit "stable", lit "→")].

Definition get_trend_indicator (self : CropRate) : str :=
  default (lit "→") (literal_get (trend self) trend_symbols).

End crop_rate.

(** ** market_service.py, the prices being rationals *)

Module market_service.
Import Py.

(** The record of the rate store: a second dataclass of the same name. *)
Record CropRate := {
  crop_name : str;
  current_price : Q;
  unit : str;
  market_location : str;
  last_updated : Z;
  trend : str;
  historical_data : list Q
}.

(** Objects live in a heap and are handled through references: the
    records, and the dicts from crop key to record, whose order is the
    insertion order. *)
Abbreviation loc := nat (only parsing).
Abbreviation dict := (list (str * loc)) (only parsing).

(** The outside world of the service.  [random.random()] and
    [datetime.now()] are oracles; the state remembers how many values
    each has handed out. *)
Class Oracles := {
  random_random : nat -> Q;
  datetime_now : nat -> Z
}.

Record world := {
  records : gmap loc CropRate;
  dicts : gmap loc dict;
  next_loc : loc;
  random_pos : nat;
  clock_pos : nat
}.

Definition empty_world : world :=
  {| records := ∅; dicts := ∅; next_loc := 0; random_pos := 0; clock_pos := 0 |}.

Definition dict_get (key : str) (d : dict) : option loc :=
  snd <$> List.find (fun kv => bool_decide (fst kv = key)) d.

Definition dict_values (d : dict) : list loc := map snd d.

Record MarketRateService := { mock_data : loc }.

Section WithOracles.
Context {oracles : Oracles}.

(** [random.uniform(a, b)] is [a + (b - a) * random()]. *)
Definition uniform (a b : Q) (w : world) : Q * world :=
  ((a + (b - a) * random_random (random_pos w))%Q,
   {| records := records w; dicts := dicts w; next_loc := next_loc w;
      random_pos := S (random_pos w); clock_pos := clock_pos w |}).

Definition now (w : world) : Z * world :=
  (datetime_now (clock_pos w),
   {| records := records w; dicts := dicts w; next_loc := next_loc w;
      random_pos := random_pos w; clock_pos := S (clock_pos w) |}).

Definition alloc_record (c : CropRate) (w : world) : loc * world :=
  (next_loc w,
   {| records := <[next_loc w := c]> (records w); dicts := dicts w;
      next_loc := S (next_loc w);
      random_pos := random_pos w; clock_pos := clock_pos w |}).

Definition alloc_dict (d : dict) (w : world) : loc * world :=
  (next_loc w,
   {| records := records w; dicts := <[next_loc w := d]> (dicts w);
      next_loc := S (next_loc w);
      random_pos := random_pos w; clock_pos := clock_pos w |}).

Definition store_record (l : loc) (c : CropRate) (w : world) : world :=
  {| records := <[l := c]> (records w); dicts := dicts w;
     next_loc := next_loc w;
     random_pos := random_pos w; clock_pos := clock_pos w |}.

(** [[base + random.uniform(-200, 200) for _ in range(n)]] *)
Fixpoint mock_history (base_price : Q) (n : nat) (w : world) : list Q * world :=
  match n with
  | O => ([], w)
  | S n' =>
      let '(u, w1) := uniform (-200) 200 w in
      let '(rest, w2) := mock_history base_price n' w1 in
      ((base_price + u)%Q :: rest, w2)
  end.

(** The constructor with [__post_init__]: no check on the fields; a
    missing history is filled with seven mock values. *)
Definition new_CropRate (crop_name : str) (current_price : Q)
    (unit market_location : str) (last_updated : Z) (trend : str)
    (historical_data : option (list Q)) (w : world) : loc * world :=
  let '(hist, w1) :=
    match historical_data with
    | None => mock_history current_price 7 w
    | Some h => (h, w)
    end in
  alloc_record (Build_CropRate crop_name current_price unit market_location
                  last_updated trend hist) w1.

(** The seeded catalogue: key, display name, price, market, trend. *)
Definition entry (key name : string) (price : Q) (market trend : string)
  : string * string * Q * string * string :=
  (key, name, price, market, trend).

Definition catalogue : list (string * string * Q * string * string) :=
  [ entry "wheat" "Wheat (गहूं)" 2500 "Pune Mandi" "up";
    entry "rice" "Rice (चावल)" 3200 "Mumbai Mandi" "stable";
    entry "onion" "Onion (कांदा)" 1800 "Nashik Mandi" "down";
    entry "tomato" "Tomato (टमाटर)" 2200 "Pune Mandi" "up";
    entry "potato" "Potato (बटाटा)" 1500 "Delhi Mandi" "stable";
    entry "sugarcane" "Sugarcane (ऊस)" 350 "Kolhapur Mandi" "up";
    entry "cotton" "Cotton (कापूस)" 5800 "Nagpur Mandi" "down";
    entry "soybean" "Soybean (सोयाबीन)" 4200 "Indore Mandi" "stable" ].

Fixpoint seed (current_time : Z)
    (entries : list (string * string * Q * string * string)) (w : world)
    : dict * world :=
  match entries with
  | [] => ([], w)
  | (key, name, price, market, trend) :: rest =>
      let '(l, w1) := new_CropRate (lit name) price (lit "quintal") (lit market)
                        current_time (lit trend) None w in
      let '(d, w2) := seed current_time rest w1 in
      ((lit key, l) :: d, w2)
  end.

Definition _initialize_mock_data (w : world) : loc * world :=
  let '(current_time, w1) := now w in
  let '(mock_crops, w2) := seed current_time catalogue w1 in
  alloc_dict mock_crops w2.

(** [MarketRateService()] *)
Definition new_service (w : world) : MarketRateService * world :=
  let '(d, w') := _initialize_mock_data w in
  ({| mock_data := d |}, w').

Definition the_dict (self : MarketRateService) (w : world) : dict :=
  default [] (dicts w !! mock_data self).

(** [self.mock_data.copy()]: a new dict with the same bindings; the
    records are not copied. *)
Definition get_current_rates (self : MarketRateService) (w : world) : loc * world :=
  alloc_dict (the_dict self w) w.

Context {unicode : Unicode}.

Definition get_rate_by_crop (self : MarketRateService) (crop_name : str)
    (w : world) : option loc :=
  let crop_key := remove_spaces (lower crop_name) in
  dict_get crop_key (the_dict self w).

Definition get_historical_trends (self : MarketRateService) (crop_name : str)
    (days : Z) (w : world) : list Q :=
  match get_rate_by_crop self crop_name w ≫= (fun l => records w !! l) with
  | Some crop =>
      if truthy (historical_data crop) then
        if (Z.of_nat (length (historical_data crop)) >=? days)%Z
        then slice_from (- days) (historical_data crop)
        else historical_data crop
      else []
  | None => []
  end.

(** The body of the loop of [update_mock_data] on one record, given the
    value drawn for [variation] and the time read from the clock. *)
Definition new_price_of (variation : Q) (crop : CropRate) : Q :=
  (current_price crop * (1 + variation))%Q.

Definition update_crop (variation : Q) (time : Z) (crop : CropRate) : CropRate :=
  let new_price := new_price_of variation crop in
  let trend' :=
    if Num.ltb (current_price crop) new_price then lit "up"
    else if Num.ltb new_price (current_price crop) then lit "down"
    else lit "stable" in
  let hist' :=
    if truthy (historical_data crop) then
      let appended := historical_data crop ++ [new_price] in
      if 30 <? length appended then slice_from (-30) appended else appended
    else historical_data crop in
  {| crop_name := crop_name crop;
     current_price := Num.round2 new_price;
     unit := unit crop;
     market_location := market_location crop;
     last_updated := time;
     trend := trend';
     historical_data := hist' |}.

Definition update_at (w : world) (l : loc) : world :=
  match records w !! l with
  | Some crop =>
      let '(variation, w1) := uniform (-(5 # 100)) (5 # 100) w in
      let '(time, w2) := now w1 in
      store_record l (update_crop variation time crop) w2
  | None => w
  end.

Definition update_mock_data (self : MarketRateService) (w : world) : world :=
  fold_left update_at (dict_values (the_dict self w)) w.

(** Reading a record through a dict that a caller holds. *)
Definition read (w : world) (d : loc) (key : str) : option CropRate :=
  match dicts w !! d with
  | Some bindings =>
      match dict_get key bindings with
      | Some l => records w !! l
      | None => None
      end
  | None => None
  end.

(** A process in which nothing has been allocated yet; the oracles may
    already have been used. *)
Definition fresh_world (r c : nat) : world :=
  {| records := ∅; dicts := ∅; next_loc := 0; random_pos := r; clock_pos := c |}.

(** The states of a store: the one its construction gives, and the ones
    reached from there by its operations that touch the heap. *)
Inductive reachable : MarketRateService -> world -> Prop :=
| reach_new r c :
    reachable (fst (new_service (fresh_world r c)))
              (snd (new_service (fresh_world r c)))
| reach_update self w :
    reachable self w -> reachable self (update_mock_data self w)
| reach_rates self w :
    reachable self w -> reachable self (snd (get_current_rates self w)).

(** The dict of the store exists, and its keys lead to distinct records
    that exist. *)
Definition well_formed (self : MarketRateService) (w : world) : Prop :=
  exists d, dicts w !! mock_data self = Some d /\
            NoDup (dict_values d) /\
            Forall (fun l => is_Some (records w !! l)) (dict_values d).

(** The value of [random.uniform(-0.05, 0.05)] on the [n]-th draw. *)
Definition variation_at (n : nat) : Q :=
  (-(5 # 100) + ((5 # 100) - -(5 # 100)) * random_random n)%Q.

(** [random.random()] answers in the interval [0, 1). *)
Definition unit_interval : Prop :=
  forall n, (0 <= random_random n < 1)%Q.

(** The last element of a history, as [getHistory(...)[-1]] reads it. *)
Definition last_entry (history : list Q) : option Q := last history.

(** What holds of every record of the store: between 7 and 30 recorded
    prices and, when the random source answers in [0, 1), a price that is
    not negative. *)
Definition record_ok (crop : CropRate) : Prop :=
  7 <= length (historical_data crop) <= 30 /\
  (unit_interval -> (0 <= current_price crop)%Q).

(** The invariant of the store. *)
Definition store_ok (self : MarketRateService) (w : world) : Prop :=
  exists d, dicts w !! mock_data self = Some d /\
            mock_data self < next_loc w /\
            NoDup (dict_values d) /\
            Forall (fun l => exists crop, records w !! l = Some crop /\ record_ok crop)
                   (dict_values d).

(** [search_crops]: the records, in the order of the dict, whose
    lower-cased name contains the lower-cased query. *)
Definition search_crops (self : MarketRateService) (query : str) (w : world)
    : list loc :=
  let query := lower query in
  List.filter
    (fun l => match records w !! l with
              | Some crop => str_in query (lower (crop_name crop))
              | None => false
              end)
    (dict_values (the_dict self w)).

(** [get_trending_crops]: the records, in the order of the dict, whose
    trend is [trend_type]. *)
Definition get_trending_crops (self : MarketRateService) (trend_type : str)
    (w : world) : list loc :=
  List.filter
    (fun l => match records w !! l with
              | Some crop => bool_decide (trend crop = trend_type)
              | None => false
              end)
    (dict_values (the_dict self w)).

(** The parts of an entry of the catalogue, and the dict that seeding
    [entries] from location [start] builds. *)
Definition entry_key (e : string * string * Q * string * string) : str :=
  lit e.1.1.1.1.
Definition entry_name (e : string * string * Q * string * string) : str :=
  lit e.1.1.1.2.
Definition entry_price (e : string * string * Q * string * string) : Q :=
  e.1.1.2.
Definition entry_market (e : string * string * Q * string * string) : str :=
  lit e.1.2.
Definition entry_trend (e : string * string * Q * string * string) : str :=
  lit e.2.

Definition seeded_dict (start : nat)
    (entries : list (string * string * Q * string * string)) : dict :=
  zip (map entry_key entries) (seq start (length entries)).

End WithOracles.

(** Oracles for concrete runs. *)
Definition steady : Oracles :=
  {| random_random := fun _ => 1 # 2; datetime_now := fun n => Z.of_nat n |}.
Definition rising : Oracles :=
  {| random_random := fun _ => 3 # 4; datetime_now := fun n => Z.of_nat n |}.
(** The store draws 56 values when it is built and 8 on every tick; the
    first record is served first.  Here the first tick takes wheat from
    2500 to 2499.99, and the second draws almost the largest fall. *)
Definition dipping : Oracles :=
  {| random_random := fun n =>
       if n =? 56 then 49996 # 100000
       else if n =? 64 then 1 # 100000
       else 1 # 2;
     datetime_now := fun n => Z.of_nat n |}.

End market_service.

(** ** market_service.py, with the numbers of the interpreter

    The rate store once more, the prices now being binary64 numbers with
    the arithmetic, the comparisons and the [round] of the interpreter.
    What is said below about the value of a price, which is the new
    price of a tick, its rounding and the trend, is said of this module;
    the module above, on rationals, serves where only the identity, the
    order and the number of the records and of their recorded prices
    matter. *)

Module market_service_binary64.
Import Py.

Record CropRate := {
  crop_name : str;
  current_price : float;
  unit : str;
  market_location : str;
  last_updated : Z;
  trend : str;
  historical_data : list float
}.

(** References and dicts are those of the module above. *)
Abbreviation loc := nat (only parsing).
Abbreviation dict := (list (str * loc)) (only parsing).
Abbreviation dict_get := market_service.dict_get (only parsing).
Abbreviation dict_values := market_service.dict_values (only parsing).
Abbreviation MarketRateService := market_service.MarketRateService (only parsing).
Abbreviation mock_data := market_service.mock_data (only parsing).

(** [random.random()] answers with a binary64 number. *)
Class Oracles := {
  random_random : nat -> float;
  datetime_now : nat -> Z
}.

Record world := {
  records : gmap loc CropRate;
  dicts : gmap loc dict;
  next_loc : loc;
  random_pos : nat;
  clock_pos : nat
}.

Section WithOracles.
Context {oracles : Oracles}.

(** The value of [random.uniform(a, b)] when [random()] answers [r]. *)
Definition uniform_of (a b r : float) : float := (a + (b - a) * r)%float.

Definition uniform (a b : float) (w : world) : float * world :=
  (uniform_of a b (random_random (random_pos w)),
   {| records := records w; dicts := dicts w; next_loc := next_loc w;
      random_pos := S (random_pos w); clock_pos := clock_pos w |}).

Definition now (w : world) : Z * world :=
  (datetime_now (clock_pos w),
   {| records := records w; dicts := dicts w; next_loc := next_loc w;
      random_pos := random_pos w; clock_pos := S (clock_pos w) |}).

Definition alloc_record (c : CropRate) (w : world) : loc * world :=
  (next_loc w,
   {| records := <[next_loc w := c]> (records w); dicts := dicts w;
      next_loc := S (next_loc w);
      random_pos := random_pos w; clock_pos := clock_pos w |}).

Definition alloc_dict (d : dict) (w : world) : loc * world :=
  (next_loc w,
   {| records := records w; dicts := <[next_loc w := d]> (dicts w);
      next_loc := S (next_loc w);
      random_pos := random_pos w; clock_pos := clock_pos w |}).

Definition store_record (l : loc) (c : CropRate) (w : world) : world :=
  {| records := <[l := c]> (records w); dicts := dicts w;
     next_loc := next_loc w;
     random_pos := random_pos w; clock_pos := clock_pos w |}.

(** [[base + random.uniform(-200, 200) for _ in range(n)]] *)
Fixpoint mock_history (base_price : float) (n : nat) (w : world)
    : list float * world :=
  match n with
  | O => ([], w)
  | S n' =>
      let '(u, w1) := uniform (-200) 200 w in
      let '(rest, w2) := mock_history base_price n' w1 in
      ((base_price + u)%float :: rest, w2)
  end.

Definition new_CropRate (crop_name : str) (current_price : float)
    (unit market_location : str) (last_updated : Z) (trend : str)
    (historical_data : option (list float)) (w : world) : loc * world :=
  let '(hist, w1) :=
    match historical_data with
    | None => mock_history current_price 7 w
    | Some h => (h, w)
    end in
  alloc_record (Build_CropRate crop_name current_price unit market_location
                  last_updated trend hist) w1.

Definition entry (key name : string) (price : float) (market trend : string)
  : string * string * float * string * string :=
  (key, name, price, market, trend).

Definition catalogue : list (string * string * float * string * string) :=
  [ entry "wheat" "Wheat (गहूं)" 2500 "Pune Mandi" "up";
    entry "rice" "Rice (चावल)" 3200 "Mumbai Mandi" "stable";
    entry "onion" "Onion (कांदा)" 1800 "Nashik Mandi" "down";
    entry "tomato" "Tomato (टमाटर)" 2200 "Pune Mandi" "up";
    entry "potato" "Potato (बटाटा)" 1500 "Delhi Mandi" "stable";
    entry "sugarcane" "Sugarcane (ऊस)" 350 "Kolhapur Mandi" "up";
    entry "cotton" "Cotton (कापूस)" 5800 "Nagpur Mandi" "down";
    entry "soybean" "Soybean (सोयाबीन)" 4200 "Indore Mandi" "stable" ].

Fixpoint seed (current_time : Z)
    (entries : list (string * string * float * string * string)) (w : world)
    : dict * world :=
  match entries with
  | [] => ([], w)
  | (key, name, price, market, trend) :: rest =>
      let '(l, w1) := new_CropRate (lit name) price (lit "quintal") (lit market)
                        current_time (lit trend) None w in
      let '(d, w2) := seed current_time rest w1 in
      ((lit key, l) :: d, w2)
  end.

Definition _initialize_mock_data (w : world) : loc * world :=
  let '(current_time, w1) := now w in
  let '(mock_crops, w2) := seed current_time catalogue w1 in
  alloc_dict mock_crops w2.

Definition new_service (w : world) : MarketRateService * world :=
  let '(d, w') := _initialize_mock_data w in
  ({| market_service.mock_data := d |}, w').

Definition the_dict (self : MarketRateService) (w : world) : dict :=
  default [] (dicts w !! mock_data self).

Definition get_current_rates (self : MarketRateService) (w : world) : loc * world :=
  alloc_dict (the_dict self w) w.

Context {unicode : Unicode}.

Definition get_rate_by_crop (self : MarketRateService) (crop_name : str)
    (w : world) : option loc :=
  let crop_key := remove_spaces (lower crop_name) in
  dict_get crop_key (the_dict self w).

Definition get_historical_trends (self : MarketRateService) (crop_name : str)
    (days : Z) (w : world) : list float :=
  match get_rate_by_crop self crop_name w ≫= (fun l => records w !! l) with
  | Some crop =>
      if truthy (historical_data crop) then
        if (Z.of_nat (length (historical_data crop)) >=? days)%Z
        then slice_from (- days) (historical_data crop)
        else historical_data crop
      else []
  | None => []
  end.

(** The body of the loop of [update_mock_data] on one record, given the
    value drawn for [variation] and the time read from the clock. *)
Definition new_price_of (variation : float) (crop : CropRate) : float :=
  (current_price crop * (1 + variation))%float.

Definition update_crop (variation : float) (time : Z) (crop : CropRate) : CropRate :=
  let new_price := new_price_of variation crop in
  let trend' :=
    if Binary64.gt new_price (current_price crop) then lit "up"
    else if Binary64.lt new_price (current_price crop) then lit "down"
    else lit "stable" in
  let hist' :=
    if truthy (historical_data crop) then
      let appended := historical_data crop ++ [new_price] in
      if 30 <? length appended then slice_from (-30) appended else appended
    else historical_data crop in
  {| crop_name := crop_name crop;
     current_price := Binary64.round2 new_price;
     unit := unit crop;
     market_location := market_location crop;
     last_updated := time;
     trend := trend';
     historical_data := hist' |}.

Definition update_at (w : world) (l : loc) : world :=
  match records w !! l with
  | Some crop =>
      let '(variation, w1) := uniform (-0.05) 0.05 w in
      let '(time, w2) := now w1 in
      store_record l (update_crop variation time crop) w2
  | None => w
  end.

Definition update_mock_data (self : MarketRateService) (w : world) : world :=
  fold_left update_at (dict_values (the_dict self w)) w.

(** Reading a record through a dict that a caller holds. *)
Definition read (w : world) (d : loc) (key : str) : option CropRate :=
  match dicts w !! d with
  | Some bindings =>
      match dict_get key bindings with
      | Some l => records w !! l
      | None => None
      end
  | None => None
  end.

Definition fresh_world (r c : nat) : world :=
  {| records := ∅; dicts := ∅; next_loc := 0; random_pos := r; clock_pos := c |}.

(** The states of a store: the one its construction gives, and the ones
    reached from there by its operations that touch the heap. *)
Inductive reachable : MarketRateService -> world -> Prop :=
| reach_new r c :
    reachable (fst (new_service (fresh_world r c)))
              (snd (new_service (fresh_world r c)))
| reach_update self w :
    reachable self w -> reachable self (update_mock_data self w)
| reach_rates self w :
    reachable self w -> reachable self (snd (get_current_rates self w)).

(** The dict of the store exists, and its keys lead to distinct records
    that exist. *)
Definition well_formed (self : MarketRateService) (w : world) : Prop :=
  exists d, dicts w !! mock_data self = Some d /\
            mock_data self < next_loc w /\
            NoDup (dict_values d) /\
            Forall (fun l => is_Some (records w !! l)) (dict_values d).

(** The value of [random.uniform(-0.05, 0.05)] on the [n]-th draw. *)
Definition variation_at (n : nat) : float :=
  uniform_of (-0.05) 0.05 (random_random n).


(** The last element of a history, as [getHistory(...)[-1]] reads it. *)
Definition last_entry (history : list float) : option float := last history.

End WithOracles.

(** An oracle for concrete runs.  The store draws 56 values when it is
    built and 8 on every tick; the first record is served first.  Here
    the first tick takes wheat from 2500 to 2499.99, and the second draws
    almost the largest fall. *)
Definition dipping : Oracles :=
  {| random_random := fun n =>
       if n =? 56 then 0.49996%float
       else if n =? 64 then 0.00001%float
       else 0.5%float;
     datetime_now := fun n => Z.of_nat n |}.

End market_service_binary64.

(** ** app.py: the price suggestion of the negotiation page

    The suggestion is one binary64 multiplication, so it is modelled on
    primitive floats: the values are the ones Python computes. *)

Module app.
Import Py.

Definition suggested_price (current_price : float) (user_role : str) : float :=
  if bool_decide (user_role = lit "buyer")
  then (current_price * 0.95)%float
  else (current_price * 1.05)%float.

(** *** The texts of the interface *)

Local Open Scope string_scope.

(** [UI_TRANSLATIONS]: the items of the dict literal, language by
    language, in the order of the source. *)
Definition UI_TRANSLATIONS_items : list (string * list (string * string)) :=
  [ ("marathi",
     [ ("title", "बहुभाषिक मंडी");
       ("subtitle", "स्थानिक व्यापाऱ्यांसाठी भाषिक सेतू");
       ("market_rates", "बाजार भाव");
       ("negotiation", "वाटाघाटी");
       ("language_settings", "भाषा सेटिंग्ज");
       ("select_language", "भाषा निवडा");
       ("current_prices", "सध्याचे भाव");
       ("crop_name", "पिकाचे नाव");
       ("price", "भाव");
       ("unit", "एकक");
       ("market", "मंडी");
       ("trend", "ट्रेंड");
       ("last_updated", "शेवटचे अपडेट");
       ("buyer", "खरेदीदार");
       ("seller", "विक्रेता");
       ("select_role", "तुमची भूमिका निवडा");
       ("chat_placeholder", "तुमचा संदेश येथे टाइप करा...");
       ("send", "पाठवा");
       ("ai_assistant", "AI सहाय्यक");
       ("price_suggestion", "भाव सुचवणे") ]);
    ("hindi",
     [ ("title", "बहुभाषी मंडी");
       ("subtitle", "स्थानीय व्यापारियों के लिए भाषाई सेतु");
       ("market_rates", "बाजार भाव");
       ("negotiation", "बातचीत");
       ("language_settings", "भाषा सेटिंग्स");
       ("select_language", "भाषा चुनें");
       ("current_prices", "वर्तमान भाव");
       ("crop_name", "फसल का नाम");
       ("price", "भाव");
       ("unit", "इकाई");
       ("market", "मंडी");
       ("trend", "रुझान");
       ("last_updated", "अंतिम अपडेट");
       ("buyer", "खरीदार");
       ("seller", "विक्रेता");
       ("select_role", "अपनी भूमिका चुनें");
       ("chat_placeholder", "यहाँ अपना संदेश टाइप करें...");
       ("send", "भेजें");
       ("ai_assistant", "AI सहायक");
       ("price_suggestion", "भाव सुझाव") ]);
    ("english",
     [ ("title", "The Multilingual Mandi");
       ("subtitle", "Linguistic bridge for local traders");
       ("market_rates", "Market Rates");
       ("negotiation", "Negotiation");
       ("language_settings", "Language Settings");
       ("select_language", "Select Language");
       ("current_prices", "Current Prices");
       ("crop_name", "Crop Name");
       ("price", "Price");
       ("unit", "Unit");
       ("market", "Market");
       ("trend", "Trend");
       ("last_updated", "Last Updated");
       ("buyer", "Buyer");
       ("seller", "Seller");
       ("select_role", "Select Your Role");
       ("chat_placeholder", "Type your message here...");
       ("send", "Send");
       ("ai_assistant", "AI Assistant");
       ("price_suggestion", "Price Suggestion") ]) ].

Local Close Scope string_scope.

Definition UI_TRANSLATIONS : list (str * list (str * str)) :=
  map (fun lt => (lit lt.1, map (fun kv => (lit kv.1, lit kv.2)) lt.2))
    UI_TRANSLATIONS_items.

(** [get_text(key)], with [st.session_state.language] as an argument:
    [UI_TRANSLATIONS.get(language, UI_TRANSLATIONS['english']).get(key, key)].
    The subscript raises [KeyError] when there is no English table. *)
Definition get_text (language key : str) : outcome str :=
  match literal_get (lit "english") UI_TRANSLATIONS with
  | None => Raise (Exception (lit "KeyError: 'english'"))
  | Some english =>
      let table := default english (literal_get language UI_TRANSLATIONS) in
      Return (default key (literal_get key table))
  end.

(** The keys of the English table. *)
Definition ui_keys : list str :=
  match literal_get (lit "english") UI_TRANSLATIONS with
  | Some english => map fst english
  | None => []
  end.

(** *** The chat of the negotiation page *)

(** One entry of [st.session_state.negotiation_history]. *)
Record message := {
  role : str;
  content : str;
  timestamp : Z
}.

(** The part of [st.session_state] the chat uses. *)
Record chat_state := {
  language : str;
  user_role : str;
  negotiation_history : list message
}.

(** The role selector of the sidebar: the state changes when another
    role is selected. *)
Definition select_role (selected_role : str) (state : chat_state) : chat_state :=
  if negb (bool_decide (selected_role = user_role state)) then
    {| language := language state;
       user_role := selected_role;
       negotiation_history := negotiation_history state |}
  else state.

(** How a message is shown: as the user's when its role is the current
    role, as the assistant's otherwise. *)
Definition chat_message_side (state : chat_state) (m : message) : str :=
  if bool_decide (role m = user_role state) then lit "user" else lit "assistant".

Section Chat.
Context {unicode : Unicode}.
Import translation_service.

(** What happens when the user sends [user_input]: nothing for an empty
    input; otherwise the message is appended, one of the candidate
    replies is picked, translated unless the language is English, and
    appended.  The candidate replies are
    formatted texts and are taken as given, with the index that
    [random.choice] picks and the two readings of the clock; the service
    is [None] when the services could not be initialised, and then the
    call fails inside the [try] and the reply stays as it is. *)
Definition chat_submit (service : option TranslationService)
    (ai_responses : list str) (choice : nat) (time1 time2 : Z)
    (user_input : str) (state : chat_state) (s : session)
    : chat_state * session :=
  if negb (truthy user_input) then (state, s) else
  let history1 :=
    negotiation_history state
    ++ [{| role := user_role state; content := user_input; timestamp := time1 |}] in
  let ai_response := nth choice ai_responses [] in
  let '(ai_response, s') :=
    if negb (bool_decide (language state = lit "english")) then
      match service with
      | Some self =>
          match translate self ai_response (language state) s with
          | (Return translated, s') => (translated, s')
          | (Raise _, s') => (ai_response, s')
          end
      | None => (ai_response, s)
      end
    else (ai_response, s) in
  ({| language := language state;
      user_role := user_role state;
      negotiation_history :=
        history1 ++ [{| role := lit "ai_assistant"; content := ai_response;
                        timestamp := time2 |}] |},
   s').

End Chat.

End app.

(** ** negotiation_assistant.py *)

Module negotiation_assistant.
Import Py.

(** [start_negotiation]: the session id [f"neg_{buyer_id}_{seller_id}_{crop}"]. *)
Definition start_negotiation (buyer_id seller_id crop : str) : str :=
  lit "neg_" ++ buyer_id ++ lit "_" ++ seller_id ++ lit "_" ++ crop.

(** The underscore that separates the parts of an id. *)
Definition underscore : char := 95%N.

End negotiation_assistant.

(* ===================================================================== *)
(** * Part 2: lemmas and theorems                                         *)
(* ===================================================================== *)

(** ** The translation service *)

Section Translation.
Import Py translation_service.
Context {unicode : Unicode}.

Lemma truthy_nonempty {A} (l : list A) : truthy l = true <-> l <> [].
Proof. destruct l; simpl; split; congruence. Qed.

Lemma log_not_extended (l : list request) (req : request) : l <> l ++ [req].
Proof.
  intros E. apply (f_equal length) in E. rewrite length_app in E. simpl in E. lia.
Qed.

Lemma translate_runs self text target_language s :
  translate_run self text target_language s (translate self text target_language s).
Proof.
  unfold translate, bind, gets, ret.
  destruct (negb (truthy text) || negb (truthy (strip text))) eqn:Hblank;
    [constructor|].
  apply orb_false_elim in Hblank as [Ht Hs].
  apply negb_false_iff, truthy_nonempty in Ht, Hs.
  case_bool_decide as Hsupp; simpl; [|constructor].
  destruct (translation_cache s !! _) eqn:Hmiss; [constructor|].
  destruct (gemini_client self) as [client|] eqn:Hclient; [|constructor].
  unfold try_except, translate_text, bind, ret.
  case_bool_decide as Hsame; [constructor|].
  destruct (client (gateway_calls s) _) as [e|translated] eqn:Hanswer; simpl.
  - eapply run_failure; eauto.
  - eapply run_answer; eauto.
Qed.

(** Whatever the gateway does, [translate] returns. *)
Lemma translate_never_raises self text target_language s :
  exists v, fst (translate self text target_language s) = Return v.
Proof.
  destruct (translate_runs self text target_language s); simpl; eauto.
Qed.

Lemma translate_without_client self text target_language s :
  gemini_client self = None ->
  snd (translate self text target_language s) = s.
Proof.
  intros Hnone.
  destruct (translate_runs self text target_language s); [reflexivity|congruence..].
Qed.

Lemma batch_translate_without_client self texts target_language s :
  gemini_client self = None ->
  snd (batch_translate self texts target_language s) = s.
Proof.
  intros Hnone. revert s.
  induction texts as [|text rest IH]; intros s; simpl; [reflexivity|].
  unfold bind.
  pose proof (translate_without_client self text target_language s Hnone) as Hs.
  destruct (translate self text target_language s) as [[t|e] s1]; simpl in Hs; subst s1;
    [|reflexivity].
  specialize (IH s).
  destruct (batch_translate self rest target_language s) as [[ts|e] s2]; exact IH.
Qed.

(** A service without a client never fills its cache. *)
Lemma reachable_without_client self s :
  reachable self s -> gemini_client self = None -> translation_cache s = ∅.
Proof.
  intros Hreach Hnone.
  induction Hreach as [|s text tl _ IH|s texts tl _ IH|s _ IH].
  - reflexivity.
  - rewrite translate_without_client; auto.
  - rewrite batch_translate_without_client; auto.
  - reflexivity.
Qed.


(** A hit in the cache ends the call at once. *)
Lemma translate_cache_hit self s text target_language cached :
  text <> [] -> strip text <> [] ->
  lower target_language ∈ supported_languages self ->
  translation_cache s !! cache_key text (lower target_language) = Some cached ->
  translate self text target_language s = (Return cached, s).
Proof.
  intros Ht Hs Hsupp Hhit.
  apply truthy_nonempty in Ht, Hs.
  unfold translate, bind, gets, ret.
  rewrite Ht, Hs; simpl.
  rewrite bool_decide_eq_true_2 by done; simpl.
  rewrite Hhit. reflexivity.
Qed.

(** C2. For a text that is neither empty nor blank and a supported target
    language, a cache entry under the key of the pair is returned as it
    is, and the session, hence the list of gateway calls, is unchanged. *)
Theorem translate_returns_cached self s text target_language cached :
  text <> [] -> strip text <> [] ->
  lower target_language ∈ supported_languages self ->
  translation_cache s !! cache_key text (lower target_language) = Some cached ->
  fst (translate self text target_language s) = Return cached /\
  snd (translate self text target_language s) = s /\
  invocations s (snd (translate self text target_language s)) = 0.
Proof.
  intros Ht Hs Hsupp Hhit.
  rewrite (translate_cache_hit self s text target_language cached) by done.
  unfold invocations. simpl. repeat split. lia.
Qed.

(** C3, as amended. If the gateway does not raise during the first of
    two successive calls, both calls return the same result and the
    gateway is called at most once over the two. *)
Theorem translate_twice self s text target_language :
  ~ gateway_raised self s (snd (translate self text target_language s)) ->
  same_and_at_most_once self s text target_language.
Proof.
  intros Hok. unfold same_and_at_most_once, invocations. simpl.
  pose proof (translate_runs self text target_language s) as Hrun.
  destruct (translate self text target_language s) as [r1 s1] eqn:Hfirst.
  simpl in *.
  inversion Hrun as [v|client t req Ht Hs Hsupp Hclient Hanswer
                    |client e req Ht Hs Hsupp Hclient Hraise]; subst.
  - rewrite Hfirst. simpl. split; [done|lia].
  - erewrite translate_cache_hit; eauto.
    + simpl. split; [done|]. rewrite length_app; simpl; lia.
    + simpl. apply lookup_insert_eq.
  - destruct Hok. exists client, req, e. done.
Qed.

(** When the gateway raises during the first call, nothing is cached and
    the second call asks the gateway again. *)
Lemma translate_twice_after_failure self s text target_language :
  let r1 := translate self text target_language s in
  let r2 := translate self text target_language (snd r1) in
  gateway_raised self s (snd r1) ->
  fst r1 = Return text /\ invocations s (snd r2) = 2.
Proof.
  intros r1 r2 Hraised. subst r1 r2.
  destruct Hraised as (client & req & e & Hclient & Hlog & Hraise).
  pose proof (translate_runs self text target_language s) as Hrun.
  destruct (translate self text target_language s) as [r1 s1] eqn:Hfirst.
  simpl in *.
  inversion Hrun as [v|client' t req' Ht Hs Hsupp Hclient' Hanswer
                    |client' e' req' Ht Hs Hsupp Hclient' Hraise' Hmiss Hdiff]; subst.
  - destruct (log_not_extended _ _ Hlog).
  - simpl in Hlog. apply app_inv_head in Hlog. injection Hlog as <-.
    subst req'. congruence.
  - split; [done|]. clear Hfirst Hrun Hlog.
    apply truthy_nonempty in Ht, Hs.
    unfold invocations, translate, bind, gets, ret.
    rewrite Ht, Hs; simpl.
    rewrite bool_decide_eq_true_2 by done; simpl.
    rewrite Hmiss, Hclient'.
    unfold try_except, translate_text, bind, ret.
    rewrite bool_decide_eq_false_2 by done. simpl.
    destruct (client' (_ ++ _) _); simpl; rewrite ?length_app; simpl; lia.
Qed.

End Translation.

(** Concrete runs, on ASCII text. *)

Section TranslationRuns.
Import Py translation_service.
Existing Instance ascii_tables.



Lemma translate_returns_cached_witness :
  let r := translate (new_service None) (lit "hello") (lit "Hindi") greeted in
  translation_cache greeted !! cache_key (lit "hello") (lower (lit "Hindi"))
    = Some (lit "[hindi] hello") /\
  fst r = Return (lit "[hindi] hello") /\ snd r = greeted /\
  invocations greeted (snd r) = 0.
Proof.
  intros r. split; [vm_compute; reflexivity|].
  apply (translate_returns_cached (new_service None) greeted
           (lit "hello") (lit "Hindi") (lit "[hindi] hello")).
  - vm_compute. discriminate.
  - vm_compute. discriminate.
  - vm_compute. apply list_elem_of_In. simpl. tauto.
  - vm_compute. reflexivity.
Defined.

(** C3 as stated fails: a gateway that raises is asked again by the
    second call, since a failure is not cached. *)
Lemma translate_twice_calls_gateway_twice :
  ~ same_and_at_most_once (new_service (Some failing_gateway)) fresh_session
      (lit "hello") (lit "hindi").
Proof.
  unfold same_and_at_most_once. vm_compute. intros [_ Hle].
  repeat (apply le_S_n in Hle). inversion Hle.
Qed.

Lemma translate_twice_witness :
  ~ gateway_raised (new_service (Some echo_gateway)) fresh_session
      (snd (translate (new_service (Some echo_gateway)) (lit "hello") (lit "hindi")
              fresh_session)) /\
  same_and_at_most_once (new_service (Some echo_gateway)) fresh_session
    (lit "hello") (lit "hindi").
Proof.
  assert (Hok : ~ gateway_raised (new_service (Some echo_gateway)) fresh_session
      (snd (translate (new_service (Some echo_gateway)) (lit "hello") (lit "hindi")
              fresh_session))).
  { intros (client & req & e & Hclient & Hlog & Hraise).
    injection Hclient as <-. destruct req as [[? ?] ?]. discriminate Hraise. }
  split; [exact Hok|].
  apply (translate_twice _ _ _ _ Hok).
Defined.

(** With a gateway that fails once and then answers, the two results
    differ as well. *)
Example translate_twice_flaky :
  let self := new_service (Some flaky_gateway) in
  let r1 := translate self (lit "hello") (lit "hindi") fresh_session in
  let r2 := translate self (lit "hello") (lit "hindi") (snd r1) in
  fst r1 = Return (lit "hello") /\ fst r2 = Return (lit "[hindi] hello").
Proof. vm_compute. split; reflexivity. Qed.

End TranslationRuns.

(** ** Numbers *)

Section Numbers.
Local Open Scope Q_scope.

Lemma ltb_lt x y : Num.ltb x y = true <-> x < y.
Proof.
  unfold Num.ltb. rewrite negb_true_iff, <- not_true_iff_false, Qle_bool_iff.
  split; [apply Qnot_le_lt | apply Qlt_not_le].
Qed.

Lemma ltb_ge x y : Num.ltb x y = false <-> y <= x.
Proof.
  unfold Num.ltb. rewrite negb_false_iff. apply Qle_bool_iff.
Qed.

Lemma round_half_even_nonneg x : 0 <= x -> (0 <= Num.round_half_even x)%Z.
Proof.
  intros Hx. unfold Num.round_half_even.
  assert (0 <= Qfloor x)%Z as Hf.
  { change 0%Z with (Qfloor 0). apply Qfloor_resp_le, Hx. }
  destruct (_ ?= _); [destruct (Z.even _)|..]; lia.
Qed.

Lemma round2_nonneg x : 0 <= x -> 0 <= Num.round2 x.
Proof.
  intros Hx.
  assert (0 <= x * 100) as Hscaled by lra.
  apply round_half_even_nonneg in Hscaled.
  unfold Num.round2, Qle. cbn [Qnum Qden]. lia.
Qed.

End Numbers.

(** ** The rate store *)

Section Market.
Import Py market_service.
Context {oracles : Oracles}.

(** [l[-n:]] for a positive [n] is the last [n] elements of [l]. *)
Lemma slice_from_negative {A} (n : Z) (l : list A) :
  (0 < n)%Z -> slice_from (- n) l = drop (length l - Z.to_nat n) l.
Proof.
  intros Hn. unfold slice_from. f_equal.
  destruct (Z.ltb_spec (- n) 0); lia.
Qed.

(** [l[-0:]] is [l[0:]]: the whole list. *)
Lemma slice_from_zero {A} (l : list A) : slice_from (- 0) l = l.
Proof. unfold slice_from. simpl. rewrite Z.min_l by lia. reflexivity. Qed.

Lemma update_at_present w l crop :
  records w !! l = Some crop ->
  update_at w l =
    {| records := <[l := update_crop (variation_at (random_pos w))
                            (datetime_now (clock_pos w)) crop]> (records w);
       dicts := dicts w; next_loc := next_loc w;
       random_pos := S (random_pos w); clock_pos := S (clock_pos w) |}.
Proof. intros Hl. unfold update_at. rewrite Hl. reflexivity. Qed.

(** The loop of [update_mock_data] over distinct records: the [i]-th one
    gets the [i]-th draw and the [i]-th clock reading from now on. *)
Lemma fold_update_at (locs : list loc) :
  NoDup locs -> forall w,
  Forall (fun l => is_Some (records w !! l)) locs ->
  let w' := fold_left update_at locs w in
  dicts w' = dicts w /\ next_loc w' = next_loc w /\
  random_pos w' = random_pos w + length locs /\
  clock_pos w' = clock_pos w + length locs /\
  (forall l, l ∉ locs -> records w' !! l = records w !! l) /\
  (forall i l crop, locs !! i = Some l -> records w !! l = Some crop ->
     records w' !! l =
       Some (update_crop (variation_at (random_pos w + i))
               (datetime_now (clock_pos w + i)) crop)).
Proof.
  induction 1 as [|l0 locs Hfresh Hnodup IH]; intros w Hall; simpl.
  { repeat split; try lia; done. }
  apply Forall_cons in Hall as [[crop0 Hcrop0] Hall].
  rewrite (update_at_present w l0 crop0 Hcrop0).
  set (w1 := {| records := _ |}).
  destruct (IH w1) as (Hd & Hn & Hr & Hc & Hout & Hin).
  { eapply Forall_impl; [exact Hall|]. intros l Hl. simpl.
    rewrite lookup_insert_is_Some. destruct (decide (l0 = l)); auto. }
  simpl in *. repeat split; try lia; try done.
  - intros l Hl. apply not_elem_of_cons in Hl as [Hne Hl].
    rewrite (Hout l Hl). simpl. by rewrite lookup_insert_ne.
  - intros i l crop Hi Hcrop. destruct i as [|i]; simpl in Hi.
    + injection Hi as <-. rewrite (Hout l0 Hfresh). simpl.
      rewrite lookup_insert_eq, !Nat.add_0_r. congruence.
    + assert (l0 <> l) as Hne.
      { intros ->. apply Hfresh. eapply list_elem_of_lookup_2, Hi. }
      rewrite (Hin i l crop Hi).
      * do 2 f_equal; f_equal; lia.
      * simpl. by rewrite lookup_insert_ne.
Qed.

Lemma dict_get_values key d l :
  dict_get key d = Some l -> l ∈ dict_values d.
Proof.
  unfold dict_get, dict_values. intros Hget.
  destruct (List.find _ d) as [[k l']|] eqn:Hfind; [|done].
  simpl in Hget. injection Hget as <-.
  apply find_some in Hfind as [Hin _].
  apply list_elem_of_In, in_map_iff. exists (k, l'). done.
Qed.

(** One tick seen through the dict of the store: the record under a key
    becomes [update_crop] of what it was, for some draw and clock reading
    of this tick. *)
Lemma update_mock_data_read self w key crop :
  well_formed self w ->
  read w (mock_data self) key = Some crop ->
  let w' := update_mock_data self w in
  dicts w' = dicts w /\
  exists i, random_pos w + i < random_pos w' /\ clock_pos w + i < clock_pos w' /\
    read w' (mock_data self) key =
      Some (update_crop (variation_at (random_pos w + i))
              (datetime_now (clock_pos w + i)) crop).
Proof.
  intros (d & Hd & Hnodup & Hall) Hread. unfold update_mock_data, the_dict.
  rewrite Hd. simpl.
  destruct (fold_update_at (dict_values d) Hnodup w Hall)
    as (Hdicts & _ & Hr & Hc & _ & Hin).
  split; [exact Hdicts|].
  unfold read in *. rewrite Hdicts, Hd in *.
  destruct (dict_get key d) as [l|] eqn:Hget; [|done].
  apply dict_get_values, list_elem_of_lookup in Hget as [i Hi].
  exists i. pose proof (lookup_lt_Some _ _ _ Hi).
  repeat split; [lia..|]. eapply Hin; eauto.
Qed.


(** *** The states of the store *)

Lemma variation_bounds n :
  unit_interval -> (-(5 # 100) <= variation_at n < 5 # 100)%Q.
Proof.
  intros Hunit. specialize (Hunit n). unfold variation_at. split; lra.
Qed.

Lemma new_price_nonneg n crop :
  unit_interval -> (0 <= current_price crop)%Q ->
  (0 <= new_price_of (variation_at n) crop)%Q.
Proof.
  intros Hunit Hprice. unfold new_price_of.
  pose proof (variation_bounds n Hunit).
  apply Qmult_le_0_compat; lra.
Qed.

Lemma update_crop_history v t crop :
  historical_data crop <> [] ->
  let appended := historical_data crop ++ [new_price_of v crop] in
  historical_data (update_crop v t crop) = drop (length appended - 30) appended.
Proof.
  intros Hne. simpl. apply truthy_nonempty in Hne. rewrite Hne.
  destruct (Nat.ltb_spec 30 (length (historical_data crop ++ [new_price_of v crop])))
    as [Hlong|Hshort].
  - apply (slice_from_negative 30). lia.
  - replace (_ - 30) with 0 by lia. reflexivity.
Qed.

Lemma update_crop_ok n t crop :
  record_ok crop -> record_ok (update_crop (variation_at n) t crop).
Proof.
  intros [Hlen Hprice]. split.
  - rewrite update_crop_history by (intros E; rewrite E in Hlen; simpl in Hlen; lia).
    rewrite length_drop, length_app. simpl. lia.
  - intros Hunit. simpl. apply round2_nonneg, new_price_nonneg; auto.
Qed.

Lemma mock_history_spec base n w :
  length (fst (mock_history base n w)) = n /\
  records (snd (mock_history base n w)) = records w /\
  dicts (snd (mock_history base n w)) = dicts w /\
  next_loc (snd (mock_history base n w)) = next_loc w.
Proof.
  revert w. induction n as [|n IH]; intros w; simpl; [done|].
  specialize (IH (snd (uniform (-200) 200 w))).
  destruct (mock_history base n _) as [rest w2]. simpl in *.
  destruct IH as (-> & -> & -> & ->). done.
Qed.

Lemma new_CropRate_spec name price unit market time trend w :
  let l := fst (new_CropRate name price unit market time trend None w) in
  let w' := snd (new_CropRate name price unit market time trend None w) in
  l = next_loc w /\ next_loc w' = S (next_loc w) /\ dicts w' = dicts w /\
  exists crop, records w' = <[next_loc w := crop]> (records w) /\
               current_price crop = price /\
               length (historical_data crop) = 7.
Proof.
  unfold new_CropRate.
  pose proof (mock_history_spec price 7 w) as (Hlen & Hrec & Hdict & Hnext).
  destruct (mock_history price 7 w) as [hist w1].
  unfold alloc_record. cbn [fst snd records dicts next_loc] in *.
  rewrite Hrec, Hdict, Hnext. repeat split; eauto.
Qed.

(** Seeding allocates one record per entry, at consecutive locations. *)
Lemma seed_spec time entries :
  Forall (fun e => (0 <= e.1.1.2)%Q) entries -> forall w,
  let d := fst (seed time entries w) in
  let w' := snd (seed time entries w) in
  dict_values d = seq (next_loc w) (length entries) /\
  next_loc w' = next_loc w + length entries /\
  dicts w' = dicts w /\
  (forall l, l < next_loc w -> records w' !! l = records w !! l) /\
  (forall l, next_loc w <= l < next_loc w' ->
     exists crop, records w' !! l = Some crop /\ record_ok crop).
Proof.
  induction 1 as [|[[[[key name] price] market] trend] rest Hprice _ IH];
    intros w; cbn [seed].
  { simpl. repeat split; try lia; done. }
  pose proof (new_CropRate_spec (lit name) price (lit "quintal") (lit market)
                time (lit trend) w) as (Hl & Hnext & Hdict & crop & Hrec & Hp & Hlen).
  destruct (new_CropRate _ _ _ _ _ _ None w) as [l w1].
  cbn [fst snd] in Hl, Hnext, Hdict, Hrec. subst l.
  specialize (IH w1).
  destruct (seed time rest w1) as [d w2].
  cbn [fst snd length dict_values map] in *.
  destruct IH as (Hvals & Hn2 & Hd2 & Hold & Hnew).
  rewrite Hnext in *.
  repeat split.
  - cbn [seq]. f_equal. exact Hvals.
  - lia.
  - by rewrite Hd2.
  - intros l Hl. rewrite Hold by lia.
    rewrite Hrec. by rewrite lookup_insert_ne by lia.
  - intros l Hl. destruct (decide (l = next_loc w)) as [->|Hne].
    + exists crop. rewrite Hold by lia. rewrite Hrec. split.
      * apply lookup_insert_eq.
      * split; [lia|]. intros _. simpl in Hprice. by rewrite Hp.
    + apply Hnew. lia.
Qed.

Lemma catalogue_prices : Forall (fun e => (0 <= e.1.1.2)%Q) catalogue.
Proof. repeat constructor; discriminate. Qed.

Lemma new_service_ok r c :
  store_ok (fst (new_service (fresh_world r c))) (snd (new_service (fresh_world r c))).
Proof.
  unfold new_service, _initialize_mock_data.
  set (w1 := snd (now (fresh_world r c))).
  change (now (fresh_world r c)) with (datetime_now c, w1). cbv iota beta.
  pose proof (seed_spec (datetime_now c) catalogue catalogue_prices w1)
    as (Hvals & Hnext & Hdicts & _ & Hnew).
  destruct (seed (datetime_now c) catalogue w1) as [d w2].
  cbn [fst snd] in *.
  exists d. repeat split; simpl.
  - apply lookup_insert_eq.
  - lia.
  - rewrite Hvals. apply NoDup_seq.
  - rewrite Hvals. apply Forall_forall. intros l Hl.
    apply elem_of_seq in Hl. apply Hnew. lia.
Qed.

Lemma store_ok_well_formed self w : store_ok self w -> well_formed self w.
Proof.
  intros (d & Hd & _ & Hnodup & Hall). exists d. repeat split; auto.
  eapply Forall_impl; [exact Hall|]. intros l (crop & -> & _). eauto.
Qed.

Lemma reachable_ok self w : reachable self w -> store_ok self w.
Proof.
  induction 1 as [r c|self w _ IH|self w _ IH].
  - apply new_service_ok.
  - pose proof (store_ok_well_formed _ _ IH) as (d' & Hd' & Hnodup' & Hall').
    destruct IH as (d & Hd & Hlt & Hnodup & Hall).
    assert (d' = d) as -> by congruence.
    unfold update_mock_data, the_dict. rewrite Hd. simpl.
    destruct (fold_update_at (dict_values d) Hnodup w Hall')
      as (Hdicts & Hnext & _ & _ & _ & Hin).
    exists d. rewrite Hdicts, Hnext. repeat split; auto.
    apply Forall_forall. intros l Hl.
    pose proof Hl as Hl'. apply list_elem_of_lookup in Hl' as [i Hi].
    rewrite Forall_forall in Hall. destruct (Hall l Hl) as (crop & Hcrop & Hok).
    eexists. split; [eapply Hin; eauto|]. by apply update_crop_ok.
  - destruct IH as (d & Hd & Hlt & Hnodup & Hall).
    exists d. unfold get_current_rates. simpl. repeat split; auto.
    rewrite lookup_insert_ne by lia. exact Hd.
Qed.

End Market.

Section MarketClaims.
Import Py market_service.
Context {oracles : Oracles}.

Lemma read_record_ok self w key crop :
  store_ok self w -> read w (mock_data self) key = Some crop -> record_ok crop.
Proof.
  intros (d & Hd & _ & _ & Hall) Hread. unfold read in Hread. rewrite Hd in Hread.
  destruct (dict_get key d) as [l|] eqn:Hget; [|done].
  apply dict_get_values in Hget. rewrite Forall_forall in Hall.
  destruct (Hall l Hget) as (crop' & Hcrop & Hok). congruence.
Qed.

Lemma trends_differ :
  lit "up" <> lit "down" /\ lit "up" <> lit "stable" /\ lit "down" <> lit "stable".
Proof. repeat split; intros E; vm_compute in E; discriminate. Qed.

Lemma last_drop {A} k (l : list A) : k < length l -> last (drop k l) = last l.
Proof.
  intros Hk. rewrite !last_lookup, lookup_drop, length_drop. f_equal. lia.
Qed.

Lemma update_crop_last v t crop :
  historical_data crop <> [] ->
  last_entry (historical_data (update_crop v t crop)) = Some (new_price_of v crop).
Proof.
  intros Hne. rewrite update_crop_history by done. unfold last_entry.
  rewrite last_drop by (rewrite length_app; simpl; lia).
  apply last_snoc.
Qed.

(** C7. In every state of the store, every record has at most 30
    recorded prices, and a tick appends the new price to the history of
    each record and keeps the last 30 entries of the result. *)
Theorem history_appended_and_capped self w key crop :
  reachable self w ->
  read w (mock_data self) key = Some crop ->
  length (historical_data crop) <= 30 /\
  exists n updated,
    let appended := historical_data crop ++ [new_price_of (variation_at n) crop] in
    read (update_mock_data self w) (mock_data self) key = Some updated /\
    historical_data updated = drop (length appended - 30) appended /\
    last_entry (historical_data updated) = Some (new_price_of (variation_at n) crop) /\
    length (historical_data updated) <= 30.
Proof.
  intros Hreach Hread.
  apply reachable_ok in Hreach.
  destruct (read_record_ok _ _ _ _ Hreach Hread) as [Hlen _].
  split; [lia|].
  destruct (update_mock_data_read self w key crop
              (store_ok_well_formed _ _ Hreach) Hread) as (_ & i & _ & _ & Hupd).
  assert (historical_data crop <> []) as Hne.
  { intros E. rewrite E in Hlen. simpl in Hlen. lia. }
  exists (random_pos w + i). eexists. split; [exact Hupd|].
  split; [by apply update_crop_history|].
  split; [by apply update_crop_last|].
  rewrite update_crop_history by done.
  rewrite length_drop, length_app. simpl. lia.
Qed.

Section WithUnicode.
Context {unicode : Unicode}.

Lemma read_by_name self name w :
  get_rate_by_crop self name w ≫= (fun l => records w !! l)
  = read w (mock_data self) (remove_spaces (lower name)).
Proof.
  unfold get_rate_by_crop, the_dict, read.
  destruct (dicts w !! mock_data self) as [d|]; simpl; [|done].
  destruct (dict_get _ d); done.
Qed.

(** For a positive number of days the answer is the last [days] recorded
    prices, all of them when there are fewer; an unknown name gives the
    empty list. *)
Lemma get_historical_trends_positive self name days w crop :
  read w (mock_data self) (remove_spaces (lower name)) = Some crop ->
  (0 < days)%Z ->
  get_historical_trends self name days w
  = drop (length (historical_data crop) - Z.to_nat days) (historical_data crop).
Proof.
  intros Hread Hdays. unfold get_historical_trends.
  rewrite read_by_name, Hread.
  destruct (historical_data crop) as [|p h] eqn:Hh; [done|].
  cbn [truthy]. destruct (Z.geb_spec (Z.of_nat (length (p :: h))) days).
  - by apply slice_from_negative.
  - replace (_ - _) with 0 by lia. reflexivity.
Qed.

Lemma get_historical_trends_unknown self name days w :
  read w (mock_data self) (remove_spaces (lower name)) = None ->
  get_historical_trends self name days w = [].
Proof.
  intros Hread. unfold get_historical_trends. by rewrite read_by_name, Hread.
Qed.

(** For zero days the answer is the whole history: [hist[-0:]] is
    [hist[0:]]. *)
Lemma get_historical_trends_zero self name w crop :
  read w (mock_data self) (remove_spaces (lower name)) = Some crop ->
  get_historical_trends self name 0 w = historical_data crop.
Proof.
  intros Hread. unfold get_historical_trends.
  rewrite read_by_name, Hread.
  destruct (historical_data crop) as [|p h] eqn:Hh; [done|].
  cbn [truthy]. destruct (Z.geb_spec (Z.of_nat (length (p :: h))) 0); [|lia].
  apply slice_from_zero.
Qed.

End WithUnicode.

(** A tick writes to the records only: the dicts, the one of the store
    and the copies handed out, keep their bindings. *)
Lemma update_mock_data_dicts self w :
  well_formed self w -> dicts (update_mock_data self w) = dicts w.
Proof.
  intros (d & Hd & Hnodup & Hall). unfold update_mock_data, the_dict.
  rewrite Hd. simpl. by destruct (fold_update_at (dict_values d) Hnodup w Hall).
Qed.

(** The copy handed out by [get_current_rates] has the bindings of the
    dict of the store, so it leads to the same records: whatever a later
    tick writes is read through the copy as well. *)
Lemma snapshot_shares_records self w key :
  reachable self w ->
  let snapshot := fst (get_current_rates self w) in
  let w1 := snd (get_current_rates self w) in
  snapshot <> mock_data self /\
  read (update_mock_data self w1) snapshot key
  = read (update_mock_data self w1) (mock_data self) key.
Proof.
  intros Hreach. pose proof (reach_rates _ _ Hreach) as Hreach1.
  apply reachable_ok in Hreach, Hreach1.
  pose proof (update_mock_data_dicts _ _ (store_ok_well_formed _ _ Hreach1)) as Hdicts.
  destruct Hreach as (d & Hd & Hlt & _). cbv zeta.
  split; [simpl; lia|].
  unfold read. rewrite Hdicts. unfold get_current_rates, the_dict. rewrite Hd. simpl.
  rewrite lookup_insert_eq, lookup_insert_ne by lia. by rewrite Hd.
Qed.

End MarketClaims.

(** *** Concrete runs of the store *)

Section MarketRuns.
Import Py market_service.
Existing Instance ascii_tables.

Lemma steady_unit_interval : unit_interval (oracles := steady).
Proof. intros n. split; [discriminate|reflexivity]. Defined.


Lemma history_appended_and_capped_witness :
  let self := fst (new_service (oracles := steady) (fresh_world 0 0)) in
  let w := snd (new_service (oracles := steady) (fresh_world 0 0)) in
  exists crop,
    read w (mock_data self) (lit "wheat") = Some crop /\
    length (historical_data crop) <= 30 /\
    exists n updated,
      let appended :=
        historical_data crop ++ [new_price_of (variation_at (oracles := steady) n) crop] in
      read (update_mock_data (oracles := steady) self w) (mock_data self) (lit "wheat")
        = Some updated /\
      historical_data updated = drop (length appended - 30) appended /\
      last_entry (historical_data updated)
        = Some (new_price_of (variation_at (oracles := steady) n) crop) /\
      length (historical_data updated) <= 30.
Proof.
  intros self w. eexists. split; [vm_compute; reflexivity|].
  apply (history_appended_and_capped (oracles := steady) self w (lit "wheat")).
  - apply reach_new.
  - vm_compute. reflexivity.
Defined.

(** C5 fails on the code.  A caller takes the rates, then the store
    ticks: the dict the caller holds is another object than the dict of
    the store, but the wheat record read through it has changed from
    2500 to 2562.5, with a new timestamp. *)
Theorem get_current_rates_shares_records :
  let self := fst (new_service (oracles := rising) (fresh_world 0 0)) in
  let w0 := snd (new_service (oracles := rising) (fresh_world 0 0)) in
  let snapshot := fst (get_current_rates self w0) in
  let w1 := snd (get_current_rates self w0) in
  let w2 := update_mock_data (oracles := rising) self w1 in
  snapshot <> mock_data self /\
  current_price <$> read w1 snapshot (lit "wheat") = Some 2500%Q /\
  current_price <$> read w2 snapshot (lit "wheat") = Some 2562.50%Q /\
  last_updated <$> read w1 snapshot (lit "wheat") = Some 0%Z /\
  last_updated <$> read w2 snapshot (lit "wheat") = Some 1%Z.
Proof. vm_compute. repeat split; try reflexivity. discriminate. Qed.

(** C8 fails on the code for zero days: the seven recorded prices of
    wheat are returned, where the last zero entries are none. *)
Theorem get_historical_trends_zero_days :
  let self := fst (new_service (oracles := steady) (fresh_world 0 0)) in
  let w := snd (new_service (oracles := steady) (fresh_world 0 0)) in
  length (get_historical_trends self (lit "wheat") 0 w) = 7 /\
  length (get_historical_trends self (lit "wheat") 1 w) = 1 /\
  length (get_historical_trends self (lit "wheat") 9 w) = 7 /\
  get_historical_trends self (lit "barley") 3 w = [].
Proof. vm_compute. repeat split; reflexivity. Qed.

End MarketRuns.

(** ** Numbers of the interpreter *)

Section Binary64Facts.


Lemma SFcompare_refl a : a <> S754_nan -> SFcompare a a = Some Eq.
Proof.
  destruct a as [s|s| |s m e]; simpl; try done.
  - destruct s; done.
  - intros _. rewrite Z.compare_refl, Pos.compare_cont_refl. by destruct s.
Qed.





Local Open Scope Q_scope.

Lemma pow_pos_Q p : 2 ^ Zneg p == / inject_Z (Z.pow_pos 2 p).
Proof.
  change (Zneg p) with (- Zpos p)%Z. rewrite Qpower_opp.
  rewrite Z.pow_pos_fold, Zpower_Qpower by lia. reflexivity.
Qed.

Lemma nearest_integer_spec m e :
  (0 < m)%Z ->
  let k := Binary64.nearest_integer m e in
  (0 <= k)%Z /\
  Qabs (inject_Z m * 2 ^ e - inject_Z k) <= 1 # 2 /\
  (Qabs (inject_Z m * 2 ^ e - inject_Z k) == 1 # 2 -> Z.even k = true).
Proof.
  intros Hm. destruct e as [|p|p]; cbn [Binary64.nearest_integer]; cbv zeta.
  - rewrite Z.mul_1_r. split; [lia|].
    assert (inject_Z m * 2 ^ 0 - inject_Z m == 0) as -> by (cbn [Qpower]; ring).
    split; [done|]. intros E. discriminate E.
  - assert (0 < 2 ^ Z.pos p)%Z by (apply Z.pow_pos_nonneg; lia).
    split; [nia|].
    assert (inject_Z m * 2 ^ Z.pos p - inject_Z (m * 2 ^ Z.pos p) == 0) as ->.
    { rewrite inject_Z_mult, Zpower_Qpower by lia. change (inject_Z 2) with 2.
      generalize (2 ^ Z.pos p). intros a. ring. }
    split; [done|]. intros E. discriminate E.
  - rewrite pow_pos_Q.
    assert (0 < Z.pow_pos 2 p)%Z as Hd.
    { rewrite Z.pow_pos_fold. apply Z.pow_pos_nonneg; lia. }
    pose proof (Z_div_mod m (Z.pow_pos 2 p) ltac:(lia)) as Hdiv.
    set (d := Z.pow_pos 2 p) in *.
    destruct (Z.div_eucl m d) as [q r]. destruct Hdiv as [Hm' Hr].
    assert (0 <= q)%Z as Hq by nia.
    assert (0 < inject_Z d) as HdQ by (rewrite <- (Zlt_Qlt 0); exact Hd).
    set (t := inject_Z r / inject_Z d).
    assert (Hx : inject_Z m * / inject_Z d == inject_Z q + t).
    { unfold t. rewrite Hm', inject_Z_plus, inject_Z_mult. field. lra. }
    assert (Ht : t * inject_Z d == inject_Z r).
    { unfold t. field. lra. }
    rewrite Hx.
    destruct (2 * r ?= d)%Z eqn:Hcmp.
    + apply Z.compare_eq in Hcmp.
      assert (t == 1 # 2) as Hhalf.
      { unfold t. rewrite <- Hcmp, inject_Z_mult. field.
        rewrite <- Hcmp, inject_Z_mult in HdQ. change (inject_Z 2) with 2 in *. lra. }
      destruct (Z.even q) eqn:Heven.
      * split; [lia|]. split; [|done].
        apply Qabs_Qle_condition. split; lra.
      * split; [lia|]. split.
        { rewrite inject_Z_plus. change (inject_Z 1) with 1.
          apply Qabs_Qle_condition. split; lra. }
        intros _. rewrite Z.even_add, Heven. reflexivity.
    + rewrite Z.compare_lt_iff in Hcmp.
      assert (t < 1 # 2) as Hlt.
      { unfold t. apply Qlt_shift_div_r; [done|].
        rewrite Zlt_Qlt, inject_Z_mult in Hcmp. change (inject_Z 2) with 2 in *. lra. }
      assert (0 <= t) as Hge.
      { unfold t. apply Qle_shift_div_l; [done|].
        rewrite Qmult_0_l, <- (Zle_Qle 0). lia. }
      split; [lia|].
      assert (Qabs (inject_Z q + t - inject_Z q) < 1 # 2) as Hstrict.
      { apply Qabs_Qlt_condition. split; lra. }
      split; [lra|]. intros E. lra.
    + rewrite Z.compare_gt_iff in Hcmp.
      assert (1 # 2 < t) as Hgt.
      { unfold t. apply Qlt_shift_div_l; [done|].
        rewrite Zlt_Qlt, inject_Z_mult in Hcmp. change (inject_Z 2) with 2 in *. lra. }
      assert (t < 1) as Hlt.
      { unfold t. apply Qlt_shift_div_r; [done|].
        rewrite Qmult_1_l, <- Zlt_Qlt. lia. }
      split; [lia|]. rewrite inject_Z_plus. change (inject_Z 1) with 1.
      assert (Qabs (inject_Z q + t - (inject_Z q + 1)) < 1 # 2) as Hstrict.
      { apply Qabs_Qlt_condition. split; lra. }
      split; [lra|]. intros E. lra.
Qed.

(** [round(x, 2)] is [x] rounded to two decimals. *)
Lemma round2_spec x : Binary64.rounded_to_hundredths x (Binary64.round2 x).
Proof.
  unfold Binary64.rounded_to_hundredths, Binary64.round2.
  destruct (Prim2SF x) as [s|s| |s m e]; try reflexivity.
  pose proof (nearest_integer_spec (100 * Z.pos m) e ltac:(lia)) as (Hk & Hnear & Heven).
  exists (Binary64.nearest_integer (100 * Z.pos m) e).
  assert (100 * Binary64.magnitude m e == inject_Z (100 * Z.pos m) * 2 ^ e) as ->.
  { unfold Binary64.magnitude. rewrite inject_Z_mult. change (inject_Z 100) with 100. ring. }
  done.
Qed.

End Binary64Facts.

(** ** The rate store on binary64 numbers *)

Section MarketBinary64.
Import Py market_service_binary64.
Context {oracles : Oracles}.

Lemma update_at_present_binary64 w l crop :
  records w !! l = Some crop ->
  update_at w l =
    {| records := <[l := update_crop (variation_at (random_pos w))
                            (datetime_now (clock_pos w)) crop]> (records w);
       dicts := dicts w; next_loc := next_loc w;
       random_pos := S (random_pos w); clock_pos := S (clock_pos w) |}.
Proof. intros Hl. unfold update_at. rewrite Hl. reflexivity. Qed.

(** The loop of [update_mock_data] over distinct records: the [i]-th one
    gets the [i]-th draw and the [i]-th clock reading from now on. *)
Lemma fold_update_at_binary64 (locs : list loc) :
  NoDup locs -> forall w,
  Forall (fun l => is_Some (records w !! l)) locs ->
  let w' := fold_left update_at locs w in
  dicts w' = dicts w /\ next_loc w' = next_loc w /\
  random_pos w' = random_pos w + length locs /\
  clock_pos w' = clock_pos w + length locs /\
  (forall l, l ∉ locs -> records w' !! l = records w !! l) /\
  (forall i l crop, locs !! i = Some l -> records w !! l = Some crop ->
     records w' !! l =
       Some (update_crop (variation_at (random_pos w + i))
               (datetime_now (clock_pos w + i)) crop)).
Proof.
  induction 1 as [|l0 locs Hfresh Hnodup IH]; intros w Hall; simpl.
  { repeat split; try lia; done. }
  apply Forall_cons in Hall as [[crop0 Hcrop0] Hall].
  rewrite (update_at_present_binary64 w l0 crop0 Hcrop0).
  set (w1 := {| records := _ |}).
  destruct (IH w1) as (Hd & Hn & Hr & Hc & Hout & Hin).
  { eapply Forall_impl; [exact Hall|]. intros l Hl. simpl.
    rewrite lookup_insert_is_Some. destruct (decide (l0 = l)); auto. }
  simpl in *. repeat split; try lia; try done.
  - intros l Hl. apply not_elem_of_cons in Hl as [Hne Hl].
    rewrite (Hout l Hl). simpl. by rewrite lookup_insert_ne.
  - intros i l crop Hi Hcrop. destruct i as [|i]; simpl in Hi.
    + injection Hi as <-. rewrite (Hout l0 Hfresh). simpl.
      rewrite lookup_insert_eq, !Nat.add_0_r. congruence.
    + assert (l0 <> l) as Hne.
      { intros ->. apply Hfresh. eapply list_elem_of_lookup_2, Hi. }
      rewrite (Hin i l crop Hi).
      * do 2 f_equal; f_equal; lia.
      * simpl. by rewrite lookup_insert_ne.
Qed.

(** One tick seen through the dict of the store: the record under a key
    is the [i]-th of the loop for some [i], and becomes [update_crop] of
    what it was, with the [i]-th draw and the [i]-th clock reading of
    this tick. *)
Lemma update_mock_data_read_binary64 self w key crop :
  well_formed self w ->
  read w (mock_data self) key = Some crop ->
  let w' := update_mock_data self w in
  dicts w' = dicts w /\ next_loc w' = next_loc w /\
  random_pos w' = random_pos w + length (dict_values (the_dict self w)) /\
  clock_pos w' = clock_pos w + length (dict_values (the_dict self w)) /\
  exists i l,
    dict_get key (the_dict self w) = Some l /\
    dict_values (the_dict self w) !! i = Some l /\
    read w' (mock_data self) key =
      Some (update_crop (variation_at (random_pos w + i))
              (datetime_now (clock_pos w + i)) crop).
Proof.
  intros (d & Hd & _ & Hnodup & Hall) Hread. unfold update_mock_data, the_dict.
  rewrite Hd. simpl.
  destruct (fold_update_at_binary64 (dict_values d) Hnodup w Hall)
    as (Hdicts & Hnext & Hr & Hc & _ & Hin).
  do 4 (split; [done|]).
  unfold read in *. rewrite Hdicts, Hd in *.
  destruct (dict_get key d) as [l|] eqn:Hget; [|done].
  pose proof Hget as Hl.
  apply dict_get_values, list_elem_of_lookup in Hl as [i Hi].
  exists i, l. repeat split; [done|]. eapply Hin; eauto.
Qed.

Lemma update_crop_history_binary64 v t crop :
  historical_data crop <> [] ->
  let appended := historical_data crop ++ [new_price_of v crop] in
  historical_data (update_crop v t crop) = drop (length appended - 30) appended.
Proof.
  intros Hne. simpl. apply truthy_nonempty in Hne. rewrite Hne.
  destruct (Nat.ltb_spec 30 (length (historical_data crop ++ [new_price_of v crop])))
    as [Hlong|Hshort].
  - apply (slice_from_negative 30). lia.
  - replace (_ - 30) with 0 by lia. reflexivity.
Qed.

Lemma update_crop_last_binary64 v t crop :
  historical_data crop <> [] ->
  last_entry (historical_data (update_crop v t crop)) = Some (new_price_of v crop).
Proof.
  intros Hne. rewrite update_crop_history_binary64 by done. unfold last_entry.
  rewrite last_drop by (rewrite length_app; simpl; lia).
  apply last_snoc.
Qed.


(** *** The states of the store *)

Lemma mock_history_spec_binary64 base n w :
  length (fst (mock_history base n w)) = n /\
  records (snd (mock_history base n w)) = records w /\
  dicts (snd (mock_history base n w)) = dicts w /\
  next_loc (snd (mock_history base n w)) = next_loc w.
Proof.
  revert w. induction n as [|n IH]; intros w; simpl; [done|].
  specialize (IH (snd (uniform (-200) 200 w))).
  destruct (mock_history base n _) as [rest w2]. simpl in *.
  destruct IH as (-> & -> & -> & ->). done.
Qed.

Lemma new_CropRate_spec_binary64 name price unit market time trend w :
  let l := fst (new_CropRate name price unit market time trend None w) in
  let w' := snd (new_CropRate name price unit market time trend None w) in
  l = next_loc w /\ next_loc w' = S (next_loc w) /\ dicts w' = dicts w /\
  exists crop, records w' = <[next_loc w := crop]> (records w).
Proof.
  unfold new_CropRate.
  pose proof (mock_history_spec_binary64 price 7 w) as (Hlen & Hrec & Hdict & Hnext).
  destruct (mock_history price 7 w) as [hist w1].
  unfold alloc_record. cbn [fst snd records dicts next_loc] in *.
  rewrite Hrec, Hdict, Hnext. repeat split; eauto.
Qed.

(** Seeding allocates one record per entry, at consecutive locations. *)
Lemma seed_spec_binary64 time entries w :
  let d := fst (seed time entries w) in
  let w' := snd (seed time entries w) in
  dict_values d = seq (next_loc w) (length entries) /\
  next_loc w' = next_loc w + length entries /\
  dicts w' = dicts w /\
  (forall l, l < next_loc w -> records w' !! l = records w !! l) /\
  (forall l, next_loc w <= l < next_loc w' -> is_Some (records w' !! l)).
Proof.
  revert w.
  induction entries as [|[[[[key name] price] market] trend] rest IH];
    intros w; cbn [seed].
  { simpl. repeat split; try lia; done. }
  pose proof (new_CropRate_spec_binary64 (lit name) price (lit "quintal") (lit market)
                time (lit trend) w) as (Hl & Hnext & Hdict & crop & Hrec).
  destruct (new_CropRate _ _ _ _ _ _ None w) as [l w1].
  cbn [fst snd] in Hl, Hnext, Hdict, Hrec. subst l.
  specialize (IH w1).
  destruct (seed time rest w1) as [d w2].
  cbn [fst snd length market_service.dict_values map] in *.
  destruct IH as (Hvals & Hn2 & Hd2 & Hold & Hnew).
  rewrite Hnext in *.
  repeat split.
  - cbn [seq]. f_equal. exact Hvals.
  - lia.
  - by rewrite Hd2.
  - intros l Hl. rewrite Hold by lia.
    rewrite Hrec. by rewrite lookup_insert_ne by lia.
  - intros l Hl. destruct (decide (l = next_loc w)) as [->|Hne].
    + exists crop. rewrite Hold by lia. rewrite Hrec. apply lookup_insert_eq.
    + apply Hnew. lia.
Qed.

(** Every state of the store is well-formed. *)
Lemma reachable_well_formed self w : reachable self w -> well_formed self w.
Proof.
  induction 1 as [r c|self w _ IH|self w _ IH].
  - unfold new_service, _initialize_mock_data.
    set (w1 := snd (now (fresh_world r c))).
    change (now (fresh_world r c)) with (datetime_now c, w1). cbv iota beta.
    pose proof (seed_spec_binary64 (datetime_now c) catalogue w1)
      as (Hvals & Hnext & Hdicts & _ & Hnew).
    destruct (seed (datetime_now c) catalogue w1) as [d w2].
    cbn [fst snd] in *.
    exists d. repeat split; simpl.
    + apply lookup_insert_eq.
    + lia.
    + rewrite Hvals. apply NoDup_seq.
    + rewrite Hvals. apply Forall_forall. intros l Hl.
      apply elem_of_seq in Hl. apply Hnew. lia.
  - destruct IH as (d & Hd & Hlt & Hnodup & Hall).
    unfold update_mock_data, the_dict. rewrite Hd. simpl.
    destruct (fold_update_at_binary64 (dict_values d) Hnodup w Hall)
      as (Hdicts & Hnext & _ & _ & Hout & Hin).
    exists d. rewrite Hdicts, Hnext. repeat split; auto.
    apply Forall_forall. intros l Hl.
    pose proof Hl as Hl'. apply list_elem_of_lookup in Hl' as [i Hi].
    rewrite Forall_forall in Hall. destruct (Hall l Hl) as (crop & Hcrop).
    eexists. eapply Hin; eauto.
  - destruct IH as (d & Hd & Hlt & Hnodup & Hall).
    exists d. unfold get_current_rates. simpl. repeat split; auto.
    rewrite lookup_insert_ne by lia. exact Hd.
Qed.

End MarketBinary64.

Section MarketBinary64Claims.
Import Py market_service_binary64.
Context {oracles : Oracles}.


Section WithUnicode.
Context {unicode : Unicode}.

Lemma read_by_name_binary64 self name w :
  get_rate_by_crop self name w ≫= (fun l => records w !! l)
  = read w (mock_data self) (remove_spaces (lower name)).
Proof.
  unfold get_rate_by_crop, the_dict, read.
  destruct (dicts w !! mock_data self) as [d|]; simpl; [|done].
  destruct (market_service.dict_get _ d); done.
Qed.

Lemma get_historical_trends_positive_binary64 self name days w crop :
  read w (mock_data self) (remove_spaces (lower name)) = Some crop ->
  (0 < days)%Z ->
  get_historical_trends self name days w
  = drop (length (historical_data crop) - Z.to_nat days) (historical_data crop).
Proof.
  intros Hread Hdays. unfold get_historical_trends.
  rewrite read_by_name_binary64, Hread.
  destruct (historical_data crop) as [|p h] eqn:Hh; [done|].
  cbn [truthy]. destruct (Z.geb_spec (Z.of_nat (length (p :: h))) days).
  - by apply slice_from_negative.
  - replace (_ - _) with 0 by lia. reflexivity.
Qed.

(** What a tick does to the price and to the history of a record whose
    history is not empty. *)
Lemma tick_history_binary64 self w key crop :
  well_formed self w ->
  read w (mock_data self) key = Some crop ->
  historical_data crop <> [] ->
  exists i updated,
    let new_price := new_price_of (variation_at (random_pos w + i)) crop in
    let w' := update_mock_data self w in
    random_pos w + i < random_pos w' /\
    read w' (mock_data self) key = Some updated /\
    current_price updated = Binary64.round2 new_price /\
    Binary64.rounded_to_hundredths new_price (current_price updated) /\
    last_entry (historical_data updated) = Some new_price /\
    (forall name days, remove_spaces (lower name) = key -> (1 <= days)%Z ->
       last_entry (get_historical_trends self name days w') = Some new_price) /\
    Binary64.round2 <$> last_entry (historical_data updated)
      = Some (current_price updated).
Proof.
  intros Hwf Hread Hne.
  destruct (update_mock_data_read_binary64 self w key crop Hwf Hread)
    as (_ & _ & Hr & _ & i & l & _ & Hi & Hupd).
  pose proof (lookup_lt_Some _ _ _ Hi) as Hlt.
  exists i. eexists. cbv zeta.
  pose proof (update_crop_last_binary64 (variation_at (random_pos w + i))
                (datetime_now (clock_pos w + i)) crop Hne) as Hlast.
  split; [lia|]. split; [exact Hupd|]. split; [reflexivity|].
  split; [apply round2_spec|]. split; [exact Hlast|]. split.
  - intros name days <- Hdays.
    rewrite (get_historical_trends_positive_binary64 _ _ _ _ _ Hupd) by lia.
    unfold last_entry in *.
    destruct (historical_data (update_crop _ _ crop)) as [|p h] eqn:Hh; [done|].
    rewrite last_drop by (simpl; lia). exact Hlast.
  - rewrite Hlast. reflexivity.
Qed.

End WithUnicode.
End MarketBinary64Claims.

Section MarketBinary64Runs.
Import Py market_service_binary64.
Existing Instance ascii_tables.



End MarketBinary64Runs.

Section MarketBinary64History.
Import Py market_service_binary64.

(** C10. With the numbers of the interpreter.  After a tick, for every
    record whose history was not empty: the stored price is the unrounded
    new price rounded to two decimals, that is the binary64 number
    nearest to [k / 100] for an integer [k] nearest to a hundred times
    the new price; the entry appended to the history, which is the last
    one that [get_historical_trends] returns, is the unrounded new price
    itself; so the stored price is that entry rounded to two decimals.
    And the two do differ: on the second tick of a store whose draws are
    [dipping], wheat is stored at 2374.99 while the last recorded price
    is 2374.9929999899996. *)
Theorem tick_rounds_price_not_history :
  (forall (oracles : Oracles) (unicode : Unicode) self w key crop,
     well_formed self w ->
     read w (mock_data self) key = Some crop ->
     historical_data crop <> [] ->
     exists i updated,
       let new_price := new_price_of (variation_at (random_pos w + i)) crop in
       let w' := update_mock_data self w in
       random_pos w + i < random_pos w' /\
       read w' (mock_data self) key = Some updated /\
       current_price updated = Binary64.round2 new_price /\
       Binary64.rounded_to_hundredths new_price (current_price updated) /\
       last_entry (historical_data updated) = Some new_price /\
       (forall name days, remove_spaces (lower name) = key -> (1 <= days)%Z ->
          last_entry (get_historical_trends self name days w') = Some new_price) /\
       Binary64.round2 <$> last_entry (historical_data updated)
         = Some (current_price updated)) /\
  (let self := fst (new_service (oracles := dipping) (fresh_world 0 0)) in
   let w := update_mock_data (oracles := dipping) self
              (snd (new_service (oracles := dipping) (fresh_world 0 0))) in
   let w' := update_mock_data (oracles := dipping) self w in
   reachable (oracles := dipping) self w' /\
   current_price <$> read w' (mock_data self) (lit "wheat") = Some 2374.99%float /\
   last_entry (get_historical_trends (unicode := ascii_tables) self (lit "Wheat") 7 w')
     = Some 2374.9929999899996%float /\
   (2374.99 =? 2374.9929999899996)%float = false /\
   Binary64.round2 2374.9929999899996 = 2374.99%float).
Proof.
  split.
  - intros oracles unicode self w key crop. apply tick_history_binary64.
  - cbv zeta. split; [do 2 apply reach_update; apply reach_new|].
    repeat split; vm_compute; reflexivity.
Qed.

Lemma tick_rounds_price_not_history_witness :
  let self := fst (new_service (oracles := dipping) (fresh_world 0 0)) in
  let w := update_mock_data (oracles := dipping) self
             (snd (new_service (oracles := dipping) (fresh_world 0 0))) in
  well_formed self w /\
  exists crop,
    read w (mock_data self) (lit "wheat") = Some crop /\
    historical_data crop <> [] /\
    exists i updated,
      let new_price :=
        new_price_of (variation_at (oracles := dipping) (random_pos w + i)) crop in
      let w' := update_mock_data (oracles := dipping) self w in
      random_pos w + i < random_pos w' /\
      read w' (mock_data self) (lit "wheat") = Some updated /\
      current_price updated = Binary64.round2 new_price /\
      Binary64.rounded_to_hundredths new_price (current_price updated) /\
      last_entry (historical_data updated) = Some new_price /\
      (forall name days,
         remove_spaces (lower (Unicode := ascii_tables) name) = lit "wheat" ->
         (1 <= days)%Z ->
         last_entry (get_historical_trends (unicode := ascii_tables) self name days w')
           = Some new_price) /\
      Binary64.round2 <$> last_entry (historical_data updated)
        = Some (current_price updated).
Proof.
  intros self w.
  assert (Hwf : well_formed self w).
  { apply (reachable_well_formed (oracles := dipping)), reach_update, reach_new. }
  split; [exact Hwf|].
  eexists. split; [vm_compute; reflexivity|].
  split; [discriminate|].
  apply (proj1 tick_rounds_price_not_history dipping ascii_tables self w (lit "wheat")).
  - exact Hwf.
  - vm_compute. reflexivity.
  - discriminate.
Defined.

End MarketBinary64History.


(** ** Construction of records *)

Section Construction.
Import Py.

(** The validated record of [crop_rate.py] is built exactly from
    valid fields. *)
Lemma crop_rate_new_valid name price unit market time trend hist :
  crop_rate.valid_fields name price unit market trend ->
  crop_rate.new name price unit market time trend hist
  = Return (crop_rate.Build_CropRate name price unit market time trend hist).
Proof.
  intros (Hprice & Htrend & Hname & Hunit & Hmarket).
  apply ltb_ge in Hprice. apply truthy_nonempty in Hname, Hunit, Hmarket.
  unfold crop_rate.new, crop_rate.post_init. simpl.
  rewrite Hprice, bool_decide_eq_true_2 by done. simpl.
  rewrite Hname, Hunit, Hmarket. reflexivity.
Qed.

Lemma crop_rate_new_invalid name price unit market time trend hist :
  ~ crop_rate.valid_fields name price unit market trend ->
  exists msg, crop_rate.new name price unit market time trend hist
              = Raise (ValueError msg).
Proof.
  intros Hbad. unfold crop_rate.new, crop_rate.post_init. simpl.
  destruct (Num.ltb price 0) eqn:Hprice; [eauto|]. apply ltb_ge in Hprice.
  case_bool_decide as Htrend; simpl; [|eauto].
  destruct (truthy (strip name)) eqn:Hname; simpl; [|eauto].
  destruct (truthy (strip unit)) eqn:Hunit; simpl; [|eauto].
  destruct (truthy (strip market)) eqn:Hmarket; simpl; [|eauto].
  apply truthy_nonempty in Hname, Hunit, Hmarket.
  destruct Hbad. repeat split; auto.
Qed.

(** C4 fails on the code for the record of the rate store.  With the
    price -1 and otherwise valid fields, the validated record refuses
    with a [ValueError]; the record class of [market_service.py] has no
    check and builds the record. *)
Theorem rate_store_record_not_validated :
  crop_rate.new (lit "Wheat") (-1) (lit "quintal") (lit "Pune Mandi") 0
    (lit "up") None
  = Raise (crop_rate.ValueError "Current price cannot be negative") /\
  let built := market_service.new_CropRate (oracles := market_service.steady)
                 (lit "Wheat") (-1) (lit "quintal") (lit "Pune Mandi") 0
                 (lit "up") None (market_service.fresh_world 0 0) in
  market_service.current_price <$> market_service.records (snd built) !! fst built
  = Some (-1)%Q.
Proof. vm_compute. split; reflexivity. Qed.

End Construction.

(** ** The price suggestion *)

Section Suggestion.
Import Py app.

(** C9. The suggested opening price is the base price times 0.95 for the
    buyer and times 1.05 for the seller, whatever the base price; it is a
    function of the base price and the role alone.  On the base price
    1000 it is 950.0 for the buyer and 1050.0 for the seller. *)
Theorem suggested_price_by_role :
  (forall base : float,
      suggested_price base (lit "buyer") = (base * 0.95)%float /\
      suggested_price base (lit "seller") = (base * 1.05)%float) /\
  suggested_price 1000 (lit "buyer") = 950%float /\
  suggested_price 1000 (lit "seller") = 1050%float.
Proof.
  split; [intros base; split; reflexivity|].
  split; vm_compute; reflexivity.
Qed.

End Suggestion.

(* ===================================================================== *)
(** * Part 2, continued: further properties of the code                   *)
(* ===================================================================== *)

(** ** The translation service, beyond the claims *)

Section TranslationMore.
Import Py translation_service.
Context {unicode : Unicode}.

(** The four ways a call of [translate] can go, with what each one leaves
    behind. *)
Lemma translate_outcome self text target_language s :
  let key := cache_key text (lower target_language) in
  let req := (text, detect_language text, lower target_language) in
  translate self text target_language s = (Return text, s) \/
  (exists cached,
     translation_cache s !! key = Some cached /\
     translate self text target_language s = (Return cached, s)) \/
  (exists client,
     text <> [] /\ strip text <> [] /\
     lower target_language ∈ supported_languages self /\
     translation_cache s !! key = None /\
     gemini_client self = Some client /\
     detect_language text <> lower target_language /\
     ((exists translated,
         client (gateway_calls s) req = inr translated /\
         translate self text target_language s =
           (Return translated,
            {| translation_cache := <[key := translated]> (translation_cache s);
               gateway_calls := gateway_calls s ++ [req];
               shown_errors := shown_errors s |})) \/
      (exists e,
         client (gateway_calls s) req = inl e /\
         translate self text target_language s =
           (Return text,
            {| translation_cache := translation_cache s;
               gateway_calls := gateway_calls s ++ [req];
               shown_errors :=
                 shown_errors s ++ [lit "Translation failed: " ++ exn_str e] |})))).
Proof.
  cbv zeta. unfold translate, bind, gets, ret.
  destruct (negb (truthy text) || negb (truthy (strip text))) eqn:Hblank; [by left|].
  apply orb_false_elim in Hblank as [Ht Hs].
  apply negb_false_iff, truthy_nonempty in Ht, Hs.
  case_bool_decide as Hsupp; simpl; [|by left].
  destruct (translation_cache s !! _) as [cached|] eqn:Hmiss; [right; left; eauto|].
  destruct (gemini_client self) as [client|] eqn:Hclient; [|by left].
  unfold try_except, translate_text, bind, ret.
  case_bool_decide as Hsame; [by left|].
  right. right. exists client. do 6 (split; [done|]).
  destruct (client (gateway_calls s) _) as [e|translated] eqn:Hanswer; simpl.
  - right. eauto.
  - left. eauto.
Qed.

(** X1. Empty text, text made of whitespace only, and a target language
    outside the supported ones are handed back at once: the text is
    returned and the session is untouched, whatever the cache holds. *)
Theorem translate_ignores_blank_and_unsupported self s text target_language :
  text = [] \/ strip text = [] \/ lower target_language ∉ supported_languages self ->
  translate self text target_language s = (Return text, s).
Proof.
  intros Hcase. unfold translate, bind, gets, ret.
  destruct (negb (truthy text) || negb (truthy (strip text))) eqn:Hblank; [done|].
  apply orb_false_elim in Hblank as [Ht Hs].
  apply negb_false_iff, truthy_nonempty in Ht, Hs.
  destruct Hcase as [?|[?|Hunsupp]]; [done..|].
  by rewrite bool_decide_eq_false_2.
Qed.

(** X2. One call of [translate] never raises, asks the gateway at most
    once, only appends to the list of gateway calls, and keeps every entry
    the cache already had. *)
Theorem translate_effects self s text target_language :
  let r := translate self text target_language s in
  (exists v, fst r = Return v) /\
  invocations s (snd r) <= 1 /\
  (exists asked, gateway_calls (snd r) = gateway_calls s ++ asked) /\
  translation_cache s ⊆ translation_cache (snd r).
Proof.
  cbv zeta. unfold invocations.
  destruct (translate_outcome self text target_language s)
    as [E|[(cached & _ & E)|(client & _ & _ & _ & Hmiss & _ & _ &
          [(t & _ & E)|(e & _ & E)])]]; rewrite E; simpl.
  - split; [eauto|]. split; [lia|]. split; [by exists []; rewrite app_nil_r|done].
  - split; [eauto|]. split; [lia|]. split; [by exists []; rewrite app_nil_r|done].
  - split; [eauto|]. split; [rewrite length_app; simpl; lia|].
    split; [eauto|]. by apply insert_subseteq.
  - split; [eauto|]. split; [rewrite length_app; simpl; lia|].
    split; [eauto|done].
Qed.

(** One step of a batch: a result, at most one more call in the log, and
    a cache that has only grown. *)
Lemma translate_step self s text target_language :
  exists v s1 asked,
    translate self text target_language s = (Return v, s1) /\
    gateway_calls s1 = gateway_calls s ++ asked /\ length asked <= 1 /\
    translation_cache s ⊆ translation_cache s1.
Proof.
  destruct (translate_outcome self text target_language s)
    as [E|[(cached & _ & E)|(client & _ & _ & _ & Hmiss & _ & _ &
          [(t & _ & E)|(e & _ & E)])]]; rewrite E.
  - exists text, s, []. rewrite app_nil_r. simpl. repeat split; [lia|done].
  - exists cached, s, []. rewrite app_nil_r. simpl. repeat split; [lia|done].
  - eexists _, _, [_]. simpl. repeat split; [lia|]. by apply insert_subseteq.
  - eexists _, _, [_]. simpl. repeat split; [lia|done].
Qed.

(** X3. [batch_translate] never raises and answers with one result per
    text; it asks the gateway at most once per text and keeps every entry
    the cache already had. *)
Theorem batch_translate_effects self s texts target_language :
  let r := batch_translate self texts target_language s in
  (exists out, fst r = Return out /\ length out = length texts) /\
  length (gateway_calls s) <= length (gateway_calls (snd r)) /\
  invocations s (snd r) <= length texts /\
  translation_cache s ⊆ translation_cache (snd r).
Proof.
  revert s. induction texts as [|text rest IH]; intros s; cbv zeta.
  { simpl. unfold invocations. repeat split; eauto; lia. }
  cbn [batch_translate]. unfold bind.
  destruct (translate_step self s text target_language)
    as (v & s1 & asked & -> & Hlog & Hone & Hcache).
  destruct (IH s1) as ((out & Hout & Hlen) & Hmono & Hcount & Hcache').
  destruct (batch_translate self rest target_language s1) as [r2 s2].
  simpl in Hout, Hmono, Hcount, Hcache'. subst r2. unfold invocations in *. simpl.
  split; [exists (v :: out); simpl; auto|].
  rewrite Hlog, length_app in *.
  split; [lia|]. split; [lia|]. by etrans.
Qed.

(** X4. [clear_cache] empties the cache and touches nothing else; the
    next translation of a pair that needs the gateway asks it again, even
    if the pair was cached before. *)
Theorem translate_after_clear_cache self s text target_language client :
  text <> [] -> strip text <> [] ->
  lower target_language ∈ supported_languages self ->
  gemini_client self = Some client ->
  detect_language text <> lower target_language ->
  let s0 := snd (clear_cache s) in
  translation_cache s0 = ∅ /\
  gateway_calls s0 = gateway_calls s /\ shown_errors s0 = shown_errors s /\
  gateway_calls (snd (translate self text target_language s0))
  = gateway_calls s ++ [(text, detect_language text, lower target_language)].
Proof.
  intros Ht Hs Hsupp Hclient Hdiff. cbv zeta. simpl.
  do 3 (split; [reflexivity|]).
  set (s0 := {| translation_cache := ∅ |}).
  destruct (translate_outcome self text target_language s0)
    as [E|[(cached & Hhit & _)|(client' & _ & _ & _ & _ & _ & _ &
          [(t & _ & E)|(e & _ & E)])]].
  - exfalso. revert E. unfold translate, bind, gets, ret.
    apply truthy_nonempty in Ht, Hs. rewrite Ht, Hs. simpl.
    rewrite bool_decide_eq_true_2 by done. simpl.
    rewrite lookup_empty, Hclient.
    unfold try_except, translate_text, bind, ret.
    rewrite bool_decide_eq_false_2 by done.
    destruct (client _ _); simpl; intros E;
      apply (f_equal (fun r => length (gateway_calls (snd r)))) in E;
      simpl in E; rewrite length_app in E; simpl in E; lia.
  - simpl in Hhit. by rewrite lookup_empty in Hhit.
  - by rewrite E.
  - by rewrite E.
Qed.

(** X5. [detect_language] answers "english" exactly when the text has an
    alphabetic character below 128 and "marathi" otherwise, never
    "hindi"; and when the target is the detected language and the pair
    is not cached, [translate] returns the text without asking the
    gateway or caching anything. *)
Theorem translate_skips_detected_language self s text target_language :
  (detect_language text = lit "english" <->
   exists c, c ∈ text /\ isalpha c = true /\ (c < 128)%N) /\
  (detect_language text = lit "english" \/ detect_language text = lit "marathi") /\
  (lower target_language = detect_language text ->
   translation_cache s !! cache_key text (lower target_language) = None ->
   translate self text target_language s = (Return text, s)).
Proof.
  split; [|split].
  - unfold detect_language.
    destruct (existsb _ _) eqn:Hany.
    + apply existsb_exists in Hany as (c & Hin & Hlow).
      apply filter_In in Hin as [Hin Halpha].
      assert (truthy text = true) as -> by (by destruct text).
      simpl. split; [|done]. intros _. exists c.
      split; [by apply list_elem_of_In|]. split; [done|by apply N.ltb_lt].
    + rewrite andb_false_r. split; [intros E; vm_compute in E; discriminate|].
      intros (c & Hin & Halpha & Hlow).
      assert (existsb (fun c => (c <? 128)%N) (List.filter isalpha text) = true)
        as Hyes; [|congruence].
      apply existsb_exists. exists c. split.
      * apply filter_In. split; [by apply list_elem_of_In|done].
      * by apply N.ltb_lt.
  - unfold detect_language. destruct (_ && _); auto.
  - intros Hsame Hmiss. unfold translate, bind, gets, ret.
    destruct (_ || _); [done|]. destruct (negb _); [done|].
    rewrite Hmiss. destruct (gemini_client self); [|done].
    unfold try_except. by rewrite bool_decide_eq_true_2.
Qed.

(** X6. The cache key, the text and the language joined by an
    underscore, tells the pair: over the three supported languages two
    pairs with the same key are the same pair. *)
Theorem cache_key_injective text1 text2 lang1 lang2 :
  lang1 ∈ supported_languages (new_service None) ->
  lang2 ∈ supported_languages (new_service None) ->
  cache_key text1 lang1 = cache_key text2 lang2 ->
  text1 = text2 /\ lang1 = lang2.
Proof.
  intros H1 H2 Hkey.
  apply list_elem_of_In in H1, H2. simpl in H1, H2.
  unfold cache_key in Hkey.
  destruct H1 as [<-|[<-|[<-|[]]]], H2 as [<-|[<-|[<-|[]]]];
    try (apply app_inv_tail in Hkey; by subst);
    exfalso; apply (f_equal (@rev _)) in Hkey; rewrite !rev_app_distr in Hkey;
    vm_compute in Hkey; discriminate.
Qed.

Lemma batch_translate_preserves (P : session -> Prop) self texts target_language s :
  (forall s text, P s -> P (snd (translate self text target_language s))) ->
  P s -> P (snd (batch_translate self texts target_language s)).
Proof.
  intros Hstep. revert s. induction texts as [|text rest IH]; intros s Hs; [done|].
  cbn [batch_translate]. unfold bind.
  specialize (Hstep s text Hs).
  destruct (translate self text target_language s) as [[t|e] s1]; [|done].
  specialize (IH s1 Hstep).
  by destruct (batch_translate self rest target_language s1) as [[ts|e] s2].
Qed.

(** X7. In every session of the service, each cache entry is an answer
    the gateway gave: its key is the key of a text that is not blank and a
    supported language other than the detected one, and its value is what
    the client returned for that request. *)
Theorem cached_values_come_from_gateway self s key value :
  reachable self s ->
  translation_cache s !! key = Some value ->
  exists text lang client history,
    key = cache_key text lang /\
    text <> [] /\ strip text <> [] /\
    lang ∈ supported_languages self /\
    detect_language text <> lang /\
    gemini_client self = Some client /\
    client history (text, detect_language text, lang) = inr value.
Proof.
  intros Hreach. revert key value.
  set (Inv := fun s0 : session => forall key value,
    translation_cache s0 !! key = Some value ->
    exists text lang client history,
      key = cache_key text lang /\ text <> [] /\ strip text <> [] /\
      lang ∈ supported_languages self /\ detect_language text <> lang /\
      gemini_client self = Some client /\
      client history (text, detect_language text, lang) = inr value).
  assert (Hstep : forall target_language s0 text,
             Inv s0 -> Inv (snd (translate self text target_language s0))).
  { intros target_language s0 text IH key value.
    destruct (translate_outcome self text target_language s0)
      as [E|[(cached & _ & E)|(client & Ht & Hs & Hsupp & _ & Hclient & Hdiff &
            [(t & Hanswer & E)|(e & _ & E)])]]; rewrite E; simpl; auto.
    intros Hlook. apply lookup_insert_Some in Hlook as [[<- <-]|[_ Hold]]; [|auto].
    exists text, (lower target_language), client, (gateway_calls s0). done. }
  change (Inv s).
  induction Hreach as [|s text tl _ IH|s texts tl _ IH|s _ IH].
  - intros key value. simpl. by rewrite lookup_empty.
  - by apply Hstep.
  - apply (batch_translate_preserves Inv); [|exact IH].
    intros s0 text. apply Hstep.
  - intros key value. simpl. by rewrite lookup_empty.
Qed.

End TranslationMore.

Section TranslationMoreRuns.
Import Py translation_service.
Existing Instance ascii_tables.

Lemma translate_ignores_blank_and_unsupported_witness :
  translate (new_service (Some failing_gateway)) (lit "   ") (lit "hindi") greeted
  = (Return (lit "   "), greeted).
Proof.
  apply (translate_ignores_blank_and_unsupported
           (new_service (Some failing_gateway)) greeted (lit "   ") (lit "hindi")).
  right. left. vm_compute. reflexivity.
Defined.

Lemma translate_after_clear_cache_witness :
  let self := new_service (Some echo_gateway) in
  let s0 := snd (clear_cache greeted) in
  translation_cache s0 = ∅ /\
  gateway_calls s0 = gateway_calls greeted /\ shown_errors s0 = shown_errors greeted /\
  gateway_calls (snd (translate self (lit "hello") (lit "Hindi") s0))
  = gateway_calls greeted
    ++ [(lit "hello", detect_language (lit "hello"), lower (lit "Hindi"))].
Proof.
  apply (translate_after_clear_cache (new_service (Some echo_gateway)) greeted
           (lit "hello") (lit "Hindi") echo_gateway).
  - vm_compute. discriminate.
  - vm_compute. discriminate.
  - vm_compute. apply list_elem_of_In. simpl. tauto.
  - reflexivity.
  - vm_compute. discriminate.
Defined.

Lemma cache_key_injective_witness :
  lit "hello" = lit "hello" /\ lit "hindi" = lit "hindi".
Proof.
  apply (cache_key_injective (lit "hello") (lit "hello") (lit "hindi") (lit "hindi")).
  - apply list_elem_of_In. simpl. tauto.
  - apply list_elem_of_In. simpl. tauto.
  - reflexivity.
Defined.

Lemma cached_values_come_from_gateway_witness :
  exists text lang client history,
    cache_key (lit "hello") (lit "hindi") = cache_key text lang /\
    text <> [] /\ strip text <> [] /\
    lang ∈ supported_languages (new_service (Some echo_gateway)) /\
    detect_language text <> lang /\
    gemini_client (new_service (Some echo_gateway)) = Some client /\
    client history (text, detect_language text, lang) = inr (lit "[hindi] hello").
Proof.
  apply (cached_values_come_from_gateway (new_service (Some echo_gateway)) greeted
           (cache_key (lit "hello") (lit "hindi")) (lit "[hindi] hello")).
  - apply (reach_translate _ fresh_session (lit "hello") (lit "hindi")), reach_fresh.
  - vm_compute. reflexivity.
Defined.

End TranslationMoreRuns.

(** ** The rate store, beyond the claims *)

Section MarketMore.
Import Py market_service.
Context {oracles : Oracles}.

Lemma mock_history_entries base n w :
  let h := fst (mock_history base n w) in
  let w' := snd (mock_history base n w) in
  length h = n /\
  random_pos w' = random_pos w + n /\ clock_pos w' = clock_pos w /\
  records w' = records w /\ dicts w' = dicts w /\ next_loc w' = next_loc w /\
  (unit_interval -> Forall (fun p => (base - 200 <= p < base + 200)%Q) h).
Proof.
  revert w. induction n as [|n IH]; intros w; cbn [mock_history].
  { simpl. repeat split; auto. }
  unfold uniform. cbv zeta.
  set (w1 := {| records := records w |}).
  specialize (IH w1). destruct (mock_history base n w1) as [rest w2].
  cbn [fst snd] in *. destruct IH as (Hlen & Hr & Hc & Hrec & Hd & Hn & Hall).
  simpl in Hr, Hc, Hrec, Hd, Hn.
  repeat split; simpl; try congruence; try lia.
  intros Hunit. constructor; [|auto].
  specialize (Hunit (random_pos w)). split; lra.
Qed.

(** *** The shape of the store in every state *)

Section Invariant.
Variable P : string * string * Q * string * string -> CropRate -> Prop.
Hypothesis P_seeded : forall e time hist,
  e ∈ catalogue -> length hist = 7 ->
  P e (Build_CropRate (entry_name e) (entry_price e) (lit "quintal")
         (entry_market e) time (entry_trend e) hist).
Hypothesis P_tick : forall e n time crop,
  P e crop -> P e (update_crop (variation_at n) time crop).

Lemma seed_structure time entries :
  (forall e, e ∈ entries -> e ∈ catalogue) -> forall w,
  let d := fst (seed time entries w) in
  let w' := snd (seed time entries w) in
  d = seeded_dict (next_loc w) entries /\
  next_loc w' = next_loc w + length entries /\
  dicts w' = dicts w /\
  (forall l, l < next_loc w -> records w' !! l = records w !! l) /\
  (forall i e, entries !! i = Some e ->
     exists crop, records w' !! (next_loc w + i) = Some crop /\ P e crop).
Proof using P_seeded.
  induction entries as [|e rest IH]; intros Hsub w; cbn [seed].
  { simpl. repeat split; try lia; done. }
  destruct e as [[[[key name] price] market] trend].
  pose proof (mock_history_entries price 7 w)
    as (Hlen & _ & _ & Hrec & Hd & Hn & _).
  unfold new_CropRate.
  destruct (mock_history price 7 w) as [hist w0]. cbn [fst snd] in *.
  unfold alloc_record. cbv zeta.
  set (crop := Build_CropRate _ _ _ _ _ _ _).
  set (w1 := {| records := <[next_loc w0 := crop]> (records w0) |}).
  destruct (IH (fun e He => Hsub e (list_elem_of_further _ _ _ He)) w1)
    as (Hdict & Hnext & Hdicts & Hold & Hnew).
  destruct (seed time rest w1) as [d w2]. cbn [fst snd] in *.
  simpl in Hdict, Hnext, Hdicts, Hold, Hnew. rewrite Hn in *.
  repeat split.
  - unfold seeded_dict. simpl. f_equal. exact Hdict.
  - simpl. lia.
  - congruence.
  - intros l Hl. rewrite Hold by lia. rewrite lookup_insert_ne by lia. by rewrite Hrec.
  - intros i e Hi. destruct i as [|i]; simpl in Hi.
    + injection Hi as <-. exists crop. rewrite Nat.add_0_r, Hold by lia.
      split; [apply lookup_insert_eq|].
      apply (P_seeded (key, name, price, market, trend) time hist); [|done].
      apply Hsub. left.
    + destruct (Hnew i e Hi) as (c & Hc & HP). exists c.
      replace (next_loc w + S i) with (S (next_loc w) + i) by lia. done.
Qed.

Lemma seeded_dict_values start entries :
  dict_values (seeded_dict start entries) = seq start (length entries).
Proof.
  unfold dict_values, seeded_dict. apply snd_zip.
  rewrite length_map, length_seq. done.
Qed.

(** In every state the dict of the store is the seeded one, and the
    record at location [i] satisfies [P] for the [i]-th entry. *)
Lemma reachable_structure self w :
  reachable self w ->
  dicts w !! mock_data self = Some (seeded_dict 0 catalogue) /\
  mock_data self < next_loc w /\
  forall i e, catalogue !! i = Some e ->
    exists crop, records w !! i = Some crop /\ P e crop.
Proof using P_seeded P_tick.
  induction 1 as [r c|self w Hreach IH|self w Hreach IH].
  - unfold new_service, _initialize_mock_data.
    set (w1 := snd (now (fresh_world r c))).
    change (now (fresh_world r c)) with (datetime_now c, w1). cbv iota beta.
    destruct (seed_structure (datetime_now c) catalogue (fun e He => He) w1)
      as (Hdict & Hnext & Hdicts & _ & Hnew).
    destruct (seed (datetime_now c) catalogue w1) as [d w2]. cbn [fst snd] in *.
    subst d. simpl. split; [apply lookup_insert_eq|]. split; [lia|]. exact Hnew.
  - destruct IH as (Hd & Hlt & Hrec).
    pose proof (store_ok_well_formed _ _ (reachable_ok _ _ Hreach))
      as (d & Hd' & Hnodup & Hall).
    assert (d = seeded_dict 0 catalogue) as -> by congruence.
    unfold update_mock_data.
    assert (the_dict self w = seeded_dict 0 catalogue) as ->
      by (unfold the_dict; by rewrite Hd).
    destruct (fold_update_at _ Hnodup w Hall) as (Hdicts & Hnext & _ & _ & _ & Hin).
    rewrite Hdicts, Hnext. split; [done|]. split; [done|].
    intros i e Hi. destruct (Hrec i e Hi) as (crop & Hcrop & HP).
    assert (dict_values (seeded_dict 0 catalogue) !! i = Some i) as Hloc.
    { rewrite seeded_dict_values. apply lookup_seq. split; [done|].
      by apply lookup_lt_Some in Hi. }
    eexists. split; [eapply Hin; eauto|]. by apply P_tick.
  - destruct IH as (Hd & Hlt & Hrec). unfold get_current_rates. simpl.
    split; [by rewrite lookup_insert_ne by lia|]. split; [lia|done].
Qed.

End Invariant.

End MarketMore.

Section MarketBinary64More.
Import Py market_service_binary64.
Context {oracles : Oracles}.

Lemma mock_history_entries_binary64 base n w :
  let h := fst (mock_history base n w) in
  let w' := snd (mock_history base n w) in
  h = map (fun i => (base + uniform_of (-200) 200 (random_random (random_pos w + i)))%float)
        (seq 0 n) /\
  random_pos w' = random_pos w + n /\ clock_pos w' = clock_pos w /\
  records w' = records w /\ dicts w' = dicts w /\ next_loc w' = next_loc w.
Proof.
  revert w. induction n as [|n IH]; intros w; cbn [mock_history].
  { simpl. repeat split; auto. }
  unfold uniform. cbv zeta.
  set (w1 := {| records := records w |}).
  specialize (IH w1). destruct (mock_history base n w1) as [rest w2].
  cbn [fst snd] in *. destruct IH as (Hh & Hr & Hc & Hrec & Hd & Hn).
  simpl in Hh, Hr, Hc, Hrec, Hd, Hn.
  repeat split; simpl; try congruence; try lia.
  rewrite Nat.add_0_r. f_equal. rewrite Hh, <- seq_shift, map_map.
  apply map_ext. intros i. do 3 f_equal. lia.
Qed.

(** X8. With the numbers of the interpreter: a record built without a
    history gets seven mock prices, the [i]-th being its price plus
    [-200 + 400 * r] for the [i]-th value [r] drawn from now on, and uses
    seven draws; a record built with a history keeps it and draws
    nothing.  Either way the record is stored at a new location with its
    price as given, and neither the dicts nor the clock are touched. *)
Theorem new_CropRate_history name price unit market time trend hist w :
  let l := fst (new_CropRate name price unit market time trend hist w) in
  let w' := snd (new_CropRate name price unit market time trend hist w) in
  exists crop,
    l = next_loc w /\ records w' = <[l := crop]> (records w) /\
    dicts w' = dicts w /\ clock_pos w' = clock_pos w /\
    current_price crop = price /\
    match hist with
    | Some h => historical_data crop = h /\ random_pos w' = random_pos w
    | None =>
        historical_data crop
        = map (fun i => (price + (-200 + (200 - -200) * random_random (random_pos w + i)))%float)
            (seq 0 7) /\
        random_pos w' = random_pos w + 7
    end.
Proof.
  unfold new_CropRate. destruct hist as [h|].
  - simpl. eexists. repeat split.
  - pose proof (mock_history_entries_binary64 price 7 w)
      as (Hh & Hr & Hc & Hrec & Hd & Hn).
    destruct (mock_history price 7 w) as [h w1]. cbn [fst snd] in *.
    unfold alloc_record. cbn [fst snd records random_pos dicts clock_pos].
    eexists. rewrite Hrec, Hn, Hd, Hc. repeat split; simpl; auto.
Qed.

End MarketBinary64More.

Section MarketQueries.
Import Py market_service.
Context {oracles : Oracles}.

Lemma seeded_dict_cons start e rest :
  seeded_dict start (e :: rest) = (entry_key e, start) :: seeded_dict (S start) rest.
Proof. reflexivity. Qed.

Lemma dict_get_seeded_Some key start entries l :
  dict_get key (seeded_dict start entries) = Some l ->
  exists i e, entries !! i = Some e /\ key = entry_key e /\ l = start + i.
Proof.
  revert start. induction entries as [|e rest IH]; intros start; [done|].
  rewrite seeded_dict_cons. unfold dict_get. cbn [List.find fst].
  case_bool_decide as Hkey.
  - simpl. intros [= <-]. exists 0, e. split; [done|]. split; [done|lia].
  - intros Hget. destruct (IH (S start) Hget) as (i & e' & Hi & Hk & ->).
    exists (S i), e'. split; [done|]. split; [done|lia].
Qed.

Lemma dict_get_seeded_None key start entries :
  dict_get key (seeded_dict start entries) = None <->
  key ∉ map entry_key entries.
Proof.
  revert start. induction entries as [|e rest IH]; intros start.
  { split; [intros _; apply not_elem_of_nil|done]. }
  rewrite seeded_dict_cons. unfold dict_get. cbn [List.find fst map].
  rewrite not_elem_of_cons. case_bool_decide as Hkey.
  - simpl. split; [done|]. intros [Hne _]. by destruct Hne.
  - fold (dict_get key (seeded_dict (S start) rest)). rewrite IH.
    split; [intros Hrest; split; [congruence|done]|by intros [_ ?]].
Qed.

Lemma elem_of_entry_keys (entries : list (string * string * Q * string * string)) e :
  e ∈ entries -> entry_key e ∈ map entry_key entries.
Proof.
  intros He. apply list_elem_of_In in He. apply list_elem_of_In. by apply in_map.
Qed.

Lemma catalogue_lookup_elem i e : catalogue !! i = Some e -> e ∈ catalogue.
Proof. apply list_elem_of_lookup_2. Qed.

(** Reading under a key in a reachable store: nothing for a key outside
    the catalogue, and otherwise a record for which every invariant [P]
    of the store holds. *)
Lemma read_reachable (P : string * string * Q * string * string -> CropRate -> Prop)
    self w key :
  (forall e time hist, e ∈ catalogue -> length hist = 7 ->
     P e (Build_CropRate (entry_name e) (entry_price e) (lit "quintal")
            (entry_market e) time (entry_trend e) hist)) ->
  (forall e n time crop, P e crop -> P e (update_crop (variation_at n) time crop)) ->
  reachable self w ->
  (read w (mock_data self) key = None <-> key ∉ map entry_key catalogue) /\
  (forall crop, read w (mock_data self) key = Some crop ->
     exists e, e ∈ catalogue /\ key = entry_key e /\ P e crop).
Proof.
  intros Hseeded Htick Hreach.
  destruct (reachable_structure P Hseeded Htick self w Hreach) as (Hd & _ & Hrec).
  unfold read. rewrite Hd.
  destruct (dict_get key (seeded_dict 0 catalogue)) as [l|] eqn:Hget.
  - apply dict_get_seeded_Some in Hget as Hfound.
    destruct Hfound as (i & e & Hi & -> & ->).
    destruct (Hrec i e Hi) as (crop & Hcrop & HP). cbn [Nat.add]. rewrite Hcrop.
    split.
    + split; [done|]. intros Hnot. destruct Hnot.
      by eapply elem_of_entry_keys, catalogue_lookup_elem.
    + intros crop' [= <-]. exists e. split; [by eapply catalogue_lookup_elem|done].
  - split; [|done]. split; [intros _|done]. by apply dict_get_seeded_None in Hget.
Qed.

Section WithUnicode.
Context {unicode : Unicode}.

(** X9. In every state of the store, looking a crop up by name finds a
    record exactly when the lower-cased name with its spaces removed is
    one of the eight seeded keys; the record found carries the display
    name, the unit and the market it was seeded with.  No tick removes a
    key or changes these fields. *)
Theorem get_rate_by_crop_finds_seeded self w name :
  reachable self w ->
  let key := remove_spaces (lower name) in
  let found := get_rate_by_crop self name w ≫= (fun l => records w !! l) in
  (get_rate_by_crop self name w = None <-> key ∉ map entry_key catalogue) /\
  (found = None <-> key ∉ map entry_key catalogue) /\
  (forall crop, found = Some crop ->
     exists e, e ∈ catalogue /\ key = entry_key e /\
       crop_name crop = entry_name e /\ unit crop = lit "quintal" /\
       market_location crop = entry_market e).
Proof.
  intros Hreach. cbv zeta. rewrite read_by_name.
  set (P := fun (e : string * string * Q * string * string) (crop : CropRate) =>
         crop_name crop = entry_name e /\ unit crop = lit "quintal" /\
         market_location crop = entry_market e).
  destruct (read_reachable P self w (remove_spaces (lower name))) as [Hnone Hsome];
    [by intros; repeat split| by intros e n time crop (? & ? & ?); repeat split
    | exact Hreach |].
  split; [|split; [exact Hnone|exact Hsome]].
  rewrite <- Hnone.
  destruct (reachable_structure P) with (self := self) (w := w) as (Hd & _ & Hrec);
    [by intros; repeat split| by intros e n time crop (? & ? & ?); repeat split
    | exact Hreach |].
  unfold get_rate_by_crop, the_dict, read. rewrite Hd. simpl.
  destruct (dict_get _ (seeded_dict 0 catalogue)) as [l|] eqn:Hget; [|done].
  apply dict_get_seeded_Some in Hget as (i & e & Hi & _ & ->).
  destruct (Hrec i e Hi) as (crop & Hcrop & _). simpl. by rewrite Hcrop.
Qed.

Lemma catalogue_valid :
  Forall (fun e => entry_trend e ∈ [lit "up"; lit "down"; lit "stable"] /\
                   strip (entry_name e) <> [] /\ strip (entry_market e) <> [] /\
                   (1 # 100 <= entry_price e)%Q) catalogue.
Proof.
  repeat constructor;
    try (apply list_elem_of_In; vm_compute; tauto);
    try (vm_compute; discriminate).
Qed.

Lemma update_crop_trend v time crop :
  trend (update_crop v time crop) ∈ [lit "up"; lit "down"; lit "stable"].
Proof.
  cbn [update_crop trend]. apply list_elem_of_In. simpl.
  destruct (Num.ltb _ _); [tauto|]. destruct (Num.ltb _ _); tauto.
Qed.


Lemma filter_none {A} (f : A -> bool) (l : list A) :
  (forall x, x ∈ l -> f x = false) -> List.filter f l = [].
Proof.
  induction l as [|x l IH]; intros Hall; [done|]. simpl.
  rewrite (Hall x) by left. apply IH. intros y Hy. apply Hall. by right.
Qed.

(** Splitting a list three ways by a field that takes one of three
    values loses nothing. *)
Lemma filter_three_ways {A} (f : A -> str) (a b c : str) (l : list A) :
  a <> b -> a <> c -> b <> c ->
  Forall (fun x => f x = a \/ f x = b \/ f x = c) l ->
  List.filter (fun x => bool_decide (f x = a)) l
  ++ List.filter (fun x => bool_decide (f x = b)) l
  ++ List.filter (fun x => bool_decide (f x = c)) l ≡ₚ l.
Proof.
  intros Hab Hac Hbc. induction 1 as [|x l Hx _ IH]; [done|].
  cbn [List.filter].
  destruct Hx as [Hx|[Hx|Hx]]; rewrite Hx.
  - rewrite (bool_decide_eq_true_2 (a = a)), (bool_decide_eq_false_2 (a = b)),
      (bool_decide_eq_false_2 (a = c)) by done.
    simpl. by constructor.
  - rewrite (bool_decide_eq_false_2 (b = a)), (bool_decide_eq_true_2 (b = b)),
      (bool_decide_eq_false_2 (b = c)) by done.
    cbv iota. rewrite <- app_comm_cons, <- (Permutation_middle _ _ x).
    by constructor.
  - rewrite (bool_decide_eq_false_2 (c = a)), (bool_decide_eq_false_2 (c = b)),
      (bool_decide_eq_true_2 (c = c)) by done.
    cbv iota. rewrite app_assoc, <- (Permutation_middle _ _ x), <- app_assoc.
    by constructor.
Qed.

(** X11. In every state of the store the rising, the falling and the
    stable crops together are all the crops, each listed once; a trend
    outside these three lists no crop. *)
Theorem get_trending_crops_partition self w :
  reachable self w ->
  get_trending_crops self (lit "up") w ++ get_trending_crops self (lit "down") w
    ++ get_trending_crops self (lit "stable") w
  ≡ₚ dict_values (the_dict self w) /\
  length (dict_values (the_dict self w)) = 8 /\
  forall trend_type,
    trend_type ∉ [lit "up"; lit "down"; lit "stable"] ->
    get_trending_crops self trend_type w = [].
Proof.
  intros Hreach.
  set (P := fun (e : string * string * Q * string * string) (crop : CropRate) =>
         trend crop ∈ [lit "up"; lit "down"; lit "stable"]).
  destruct (reachable_structure P) with (self := self) (w := w)
    as (Hd & _ & Hrec); [| |exact Hreach|].
  { intros e time hist He _. pose proof catalogue_valid as Hall.
    rewrite Forall_forall in Hall. by destruct (Hall e He) as (? & _). }
  { intros e n time c _. apply update_crop_trend. }
  assert (the_dict self w = seeded_dict 0 catalogue) as Hdict
    by (unfold the_dict; by rewrite Hd).
  assert (Forall (fun l => exists crop, records w !! l = Some crop /\
                     trend crop ∈ [lit "up"; lit "down"; lit "stable"])
            (dict_values (the_dict self w))) as Hall.
  { rewrite Hdict, seeded_dict_values. apply Forall_forall. intros l Hl.
    apply elem_of_seq in Hl as [_ Hl]. simpl in Hl.
    destruct (lookup_lt_is_Some_2 catalogue l Hl) as [e He].
    destruct (Hrec l e He) as (crop & Hcrop & Htrend). eauto. }
  unfold get_trending_crops.
  set (trend_at := fun l => match records w !! l with
                            | Some crop => trend crop | None => [] end).
  assert (Hfilter : forall t, t <> [] ->
    List.filter (fun l => match records w !! l with
                          | Some crop => bool_decide (trend crop = t)
                          | None => false end) (dict_values (the_dict self w))
    = List.filter (fun l => bool_decide (trend_at l = t))
        (dict_values (the_dict self w))).
  { intros t Ht. apply List.filter_ext. intros l. unfold trend_at.
    destruct (records w !! l); [done|]. by rewrite bool_decide_eq_false_2. }
  destruct trends_differ as (Hud & Hus & Hds).
  split; [|split].
  - rewrite !Hfilter by (vm_compute; discriminate).
    apply filter_three_ways; auto.
    eapply Forall_impl; [exact Hall|]. intros l (crop & Hcrop & Htrend).
    unfold trend_at. rewrite Hcrop.
    apply list_elem_of_In in Htrend. simpl in Htrend.
    destruct Htrend as [<-|[<-|[<-|[]]]]; auto.
  - by rewrite Hdict, seeded_dict_values, length_seq.
  - intros t Ht. apply filter_none. intros l Hl. rewrite Forall_forall in Hall.
    destruct (Hall l Hl) as (crop & -> & Htrend).
    apply bool_decide_eq_false_2. intros E. by rewrite E in Htrend.
Qed.

Lemma startswith_spec (s prefix : str) :
  startswith s prefix = true <-> exists rest, s = prefix ++ rest.
Proof.
  revert s. induction prefix as [|p prefix IH]; intros s.
  { split; [intros _; exists s; reflexivity|by destruct s]. }
  destruct s as [|c s]; simpl.
  { split; [done|]. by intros (rest & ?). }
  rewrite andb_true_iff, N.eqb_eq, IH. split.
  - intros (-> & rest & ->). eauto.
  - intros (rest & [= -> ->]). eauto.
Qed.

Lemma str_in_spec (needle haystack : str) :
  str_in needle haystack = true <->
  exists before after, haystack = before ++ needle ++ after.
Proof.
  induction haystack as [|c rest IH]; cbn [str_in]; rewrite orb_true_iff.
  - rewrite startswith_spec. split.
    + intros [(after & ->)|?]; [|done]. by exists [], after.
    + intros (before & after & E). left. symmetry in E.
      apply app_eq_nil in E as [-> E]. exists after. done.
  - rewrite startswith_spec, IH. split.
    + intros [(after & ->)|(before & after & ->)].
      * by exists [], after.
      * by exists (c :: before), after.
    + intros (before & after & E). destruct before as [|b before].
      * left. exists after. done.
      * right. injection E as -> ->. eauto.
Qed.

(** X12. [search_crops] answers with exactly the crops of the store whose
    lower-cased display name contains the lower-cased query as a run of
    consecutive characters; a query that is empty once lower-cased finds
    every crop. *)
Theorem search_crops_matches self query w :
  (forall l, l ∈ search_crops self query w <->
     l ∈ dict_values (the_dict self w) /\
     exists crop before after,
       records w !! l = Some crop /\
       lower (crop_name crop) = before ++ lower query ++ after) /\
  (lower query = [] -> well_formed self w ->
   search_crops self query w = dict_values (the_dict self w)).
Proof.
  unfold search_crops. split.
  - intros l. rewrite list_elem_of_In, filter_In, <- list_elem_of_In.
    destruct (records w !! l) as [crop|].
    + rewrite str_in_spec. split.
      * intros (Hl & before & after & E). eauto 6.
      * intros (Hl & crop' & before & after & [= <-] & E). eauto.
    + split; [by intros [_ ?]|]. by intros (_ & crop & _ & _ & ? & _).
  - intros Hempty (d & Hd & _ & Hall). rewrite Hempty.
    assert (the_dict self w = d) as -> by (unfold the_dict; by rewrite Hd).
    apply forallb_filter_id, forallb_forall. intros l Hl.
    apply list_elem_of_In in Hl. rewrite Forall_forall in Hall.
    destruct (Hall l Hl) as [crop ->].
    apply str_in_spec. by exists [], (lower (crop_name crop)).
Qed.

(** X13. For a positive number of days [get_historical_trends] answers
    with the last [days] recorded prices of the crop, or with all of them
    when fewer are recorded; for a name that is not in the store it
    answers with the empty list. *)
Theorem get_historical_trends_last_days self name days w :
  (0 < days)%Z ->
  let answer := get_historical_trends self name days w in
  match read w (mock_data self) (remove_spaces (lower name)) with
  | Some crop =>
      answer = drop (length (historical_data crop) - Z.to_nat days)
                 (historical_data crop) /\
      length answer = Nat.min (length (historical_data crop)) (Z.to_nat days)
  | None => answer = []
  end.
Proof.
  intros Hdays. cbv zeta.
  destruct (read w (mock_data self) (remove_spaces (lower name))) as [crop|] eqn:Hread.
  - rewrite (get_historical_trends_positive _ _ _ _ _ Hread Hdays).
    split; [done|]. rewrite length_drop. lia.
  - by apply get_historical_trends_unknown.
Qed.

(** X22. For a negative number of days [get_historical_trends] answers
    with the history of the crop without its first [-days] entries:
    the length test passes and [hist[-days:]] starts at a positive index. *)
Theorem get_historical_trends_negative_days self name days w crop :
  read w (mock_data self) (remove_spaces (lower name)) = Some crop ->
  (days < 0)%Z ->
  get_historical_trends self name days w
  = drop (Z.to_nat (- days)) (historical_data crop).
Proof.
  intros Hread Hdays. unfold get_historical_trends.
  rewrite read_by_name, Hread.
  destruct (historical_data crop) as [|p h] eqn:Hh; [by rewrite drop_nil|].
  cbn [truthy]. destruct (Z.geb_spec (Z.of_nat (length (p :: h))) days); [|lia].
  unfold slice_from. destruct (Z.ltb_spec (- days) 0); [lia|].
  destruct (Z.min_spec (- days) (Z.of_nat (length (p :: h)))) as [[_ ->]|[Hge ->]];
    [done|].
  rewrite Nat2Z.id, !drop_ge; [done|lia..].
Qed.

End WithUnicode.

(** Locations from [next_loc] on hold no dict yet. *)
Lemma dicts_beyond_next_loc self w :
  reachable self w -> forall l, next_loc w <= l -> dicts w !! l = None.
Proof.
  induction 1 as [r c|self w Hreach IH|self w Hreach IH]; intros l Hl.
  - revert l Hl. unfold new_service, _initialize_mock_data.
    set (w1 := snd (now (fresh_world r c))).
    change (now (fresh_world r c)) with (datetime_now c, w1). cbv iota beta.
    pose proof (seed_spec (datetime_now c) catalogue catalogue_prices w1)
      as (_ & Hnext & Hdicts & _).
    destruct (seed (datetime_now c) catalogue w1) as [d w2]. cbn [fst snd] in *.
    simpl. intros l Hl. rewrite lookup_insert_ne by lia.
    rewrite Hdicts. apply lookup_empty.
  - pose proof (store_ok_well_formed _ _ (reachable_ok _ _ Hreach)) as Hwf.
    rewrite (update_mock_data_dicts _ _ Hwf). apply IH.
    destruct Hwf as (d & Hd & Hnodup & Hall).
    revert Hl. unfold update_mock_data.
    assert (the_dict self w = d) as -> by (unfold the_dict; by rewrite Hd).
    by destruct (fold_update_at _ Hnodup w Hall) as (_ & -> & _).
  - simpl in *. rewrite lookup_insert_ne by lia. apply IH. lia.
Qed.

(** X14. The mapping that [get_current_rates] hands out is a new dict
    that reads, key by key, as the dict of the store does at that moment;
    the call changes no record, draws nothing and leaves the dict of the
    store as it is. *)
Theorem get_current_rates_snapshot self w :
  reachable self w ->
  let snapshot := fst (get_current_rates self w) in
  let w1 := snd (get_current_rates self w) in
  snapshot <> mock_data self /\ dicts w !! snapshot = None /\
  records w1 = records w /\
  random_pos w1 = random_pos w /\ clock_pos w1 = clock_pos w /\
  forall key, read w1 snapshot key = read w (mock_data self) key /\
              read w1 (mock_data self) key = read w (mock_data self) key.
Proof.
  intros Hreach. cbv zeta.
  pose proof (dicts_beyond_next_loc _ _ Hreach (next_loc w) (le_n _)) as Hfresh.
  destruct (reachable_ok _ _ Hreach) as (d & Hd & Hlt & _).
  unfold get_current_rates, read, the_dict. rewrite Hd. simpl.
  split; [lia|]. do 4 (split; [done|]).
  intros key. rewrite lookup_insert_eq, lookup_insert_ne, Hd by lia. done.
Qed.

End MarketQueries.

Section MarketMoreRuns.
Import Py market_service.
Existing Instance ascii_tables.

Lemma get_rate_by_crop_finds_seeded_witness :
  let self := fst (new_service (oracles := steady) (fresh_world 0 0)) in
  let w := snd (new_service (oracles := steady) (fresh_world 0 0)) in
  let key := remove_spaces (lower (lit "Sugar Cane")) in
  let found := get_rate_by_crop self (lit "Sugar Cane") w ≫= (fun l => records w !! l) in
  (get_rate_by_crop self (lit "Sugar Cane") w = None <->
   key ∉ map entry_key catalogue) /\
  (found = None <-> key ∉ map entry_key catalogue) /\
  (forall crop, found = Some crop ->
     exists e, e ∈ catalogue /\ key = entry_key e /\
       crop_name crop = entry_name e /\ unit crop = lit "quintal" /\
       market_location crop = entry_market e).
Proof.
  exact (get_rate_by_crop_finds_seeded (oracles := steady)
           (fst (new_service (oracles := steady) (fresh_world 0 0)))
           (snd (new_service (oracles := steady) (fresh_world 0 0)))
           (lit "Sugar Cane") (reach_new 0 0)).
Defined.

(** Looked up with a capital and a space, sugarcane is found; the display
    name of the record is not a key. *)
Example get_rate_by_crop_examples :
  let self := fst (new_service (oracles := steady) (fresh_world 0 0)) in
  let w := snd (new_service (oracles := steady) (fresh_world 0 0)) in
  get_rate_by_crop self (lit "Sugar Cane") w = Some 5 /\
  get_rate_by_crop self (lit "Sugarcane (ऊस)") w = None.
Proof. vm_compute. split; reflexivity. Qed.


Lemma get_trending_crops_partition_witness :
  let self := fst (new_service (oracles := rising) (fresh_world 0 0)) in
  let w := update_mock_data (oracles := rising) self
             (snd (new_service (oracles := rising) (fresh_world 0 0))) in
  get_trending_crops self (lit "up") w ++ get_trending_crops self (lit "down") w
    ++ get_trending_crops self (lit "stable") w
  ≡ₚ dict_values (the_dict self w) /\
  length (dict_values (the_dict self w)) = 8 /\
  forall trend_type,
    trend_type ∉ [lit "up"; lit "down"; lit "stable"] ->
    get_trending_crops self trend_type w = [].
Proof.
  intros self w.
  apply (get_trending_crops_partition (oracles := rising) self w).
  apply reach_update, reach_new.
Defined.

(** The seeded store lists three rising, two falling and three stable
    crops, in the order of the catalogue; after a tick in which every
    price rises, all eight are rising. *)
Example get_trending_crops_examples :
  let self := fst (new_service (oracles := rising) (fresh_world 0 0)) in
  let w0 := snd (new_service (oracles := rising) (fresh_world 0 0)) in
  let w1 := update_mock_data (oracles := rising) self w0 in
  get_trending_crops self (lit "up") w0 = [0; 3; 5] /\
  get_trending_crops self (lit "down") w0 = [2; 6] /\
  get_trending_crops self (lit "stable") w0 = [1; 4; 7] /\
  get_trending_crops self (lit "up") w1 = [0; 1; 2; 3; 4; 5; 6; 7] /\
  get_trending_crops self (lit "Up") w1 = [].
Proof. vm_compute. repeat split; reflexivity. Qed.

(** The query is matched against the whole display name, the part in
    Devanagari included, whatever its case. *)
Example search_crops_examples :
  let self := fst (new_service (oracles := steady) (fresh_world 0 0)) in
  let w := snd (new_service (oracles := steady) (fresh_world 0 0)) in
  search_crops self (lit "TO") w = [3; 4; 6] /\
  search_crops self (lit "कांदा") w = [2] /\
  search_crops self (lit "") w = [0; 1; 2; 3; 4; 5; 6; 7] /\
  search_crops self (lit "maize") w = [].
Proof. vm_compute. repeat split; reflexivity. Qed.

Lemma get_historical_trends_last_days_witness :
  let self := fst (new_service (oracles := steady) (fresh_world 0 0)) in
  let w := snd (new_service (oracles := steady) (fresh_world 0 0)) in
  let answer := get_historical_trends self (lit "Wheat") 3 w in
  match read w (mock_data self) (remove_spaces (lower (lit "Wheat"))) with
  | Some crop =>
      answer = drop (length (historical_data crop) - Z.to_nat 3)
                 (historical_data crop) /\
      length answer = Nat.min (length (historical_data crop)) (Z.to_nat 3)
  | None => answer = []
  end.
Proof.
  apply (get_historical_trends_last_days
           (fst (new_service (oracles := steady) (fresh_world 0 0))) (lit "Wheat") 3
           (snd (new_service (oracles := steady) (fresh_world 0 0)))).
  reflexivity.
Defined.

Lemma get_historical_trends_negative_days_witness :
  let self := fst (new_service (oracles := steady) (fresh_world 0 0)) in
  let w := snd (new_service (oracles := steady) (fresh_world 0 0)) in
  exists crop,
    read w (mock_data self) (remove_spaces (lower (lit "Wheat"))) = Some crop /\
    length (historical_data crop) = 7 /\
    get_historical_trends self (lit "Wheat") (-2) w
    = drop (Z.to_nat (- -2)) (historical_data crop).
Proof.
  intros self w. eexists. split; [vm_compute; reflexivity|].
  split; [reflexivity|].
  apply (get_historical_trends_negative_days self (lit "Wheat") (-2) w).
  - vm_compute. reflexivity.
  - reflexivity.
Defined.

Lemma get_current_rates_snapshot_witness :
  let self := fst (new_service (oracles := steady) (fresh_world 0 0)) in
  let w := snd (new_service (oracles := steady) (fresh_world 0 0)) in
  let snapshot := fst (get_current_rates self w) in
  let w1 := snd (get_current_rates self w) in
  snapshot <> mock_data self /\ dicts w !! snapshot = None /\
  records w1 = records w /\
  random_pos w1 = random_pos w /\ clock_pos w1 = clock_pos w /\
  forall key, read w1 snapshot key = read w (mock_data self) key /\
              read w1 (mock_data self) key = read w (mock_data self) key.
Proof.
  exact (get_current_rates_snapshot (oracles := steady)
           (fst (new_service (oracles := steady) (fresh_world 0 0)))
           (snd (new_service (oracles := steady) (fresh_world 0 0)))
           (reach_new 0 0)).
Defined.

End MarketMoreRuns.

(** ** The validated record, beyond the claims *)

Section CropRateMore.
Import Py.

Lemma crop_rate_new_cases name price unit market time trend hist :
  (crop_rate.valid_fields name price unit market trend /\
   crop_rate.new name price unit market time trend hist
   = Return (crop_rate.Build_CropRate name price unit market time trend hist)) \/
  (~ crop_rate.valid_fields name price unit market trend /\
   exists msg, crop_rate.new name price unit market time trend hist
               = Raise (ValueError msg)).
Proof.
  unfold crop_rate.new, crop_rate.post_init, crop_rate.valid_fields. simpl.
  destruct (Num.ltb price 0) eqn:Hprice.
  { right. apply ltb_lt in Hprice. split; [|eauto]. intros [Hle _]. lra. }
  apply ltb_ge in Hprice.
  case_bool_decide as Htrend; simpl; [|right; split; [tauto|eauto]].
  destruct (truthy (strip name)) eqn:Hname; simpl;
    [apply truthy_nonempty in Hname
    |right; split; [|eauto]; intros (_ & _ & Hn & _);
     apply truthy_nonempty in Hn; congruence].
  destruct (truthy (strip unit)) eqn:Hunit; simpl;
    [apply truthy_nonempty in Hunit
    |right; split; [|eauto]; intros (_ & _ & _ & Hn & _);
     apply truthy_nonempty in Hn; congruence].
  destruct (truthy (strip market)) eqn:Hmarket; simpl;
    [apply truthy_nonempty in Hmarket
    |right; split; [|eauto]; intros (_ & _ & _ & _ & Hn);
     apply truthy_nonempty in Hn; congruence].
  left. repeat split; auto.
Qed.

(** X16. Building a [crop_rate.CropRate] runs the five checks in the
    order of the source, and the first that fails decides the message: a
    negative price raises "Current price cannot be negative" whatever
    else is wrong, and only a negative price does; otherwise an unknown
    trend, then a blank name, then a blank unit, then a blank market
    raise their own [ValueError]; valid fields give the record, and a
    record that is returned has the fields as given, with a price that is
    not negative, a known trend and no blank text.  Prices are rationals
    here: a NaN, which the comparison of the code lets through, is not
    among them. *)
Theorem crop_rate_new_validates name price unit market time trend hist :
  let built := crop_rate.Build_CropRate name price unit market time trend hist in
  let result := crop_rate.new name price unit market time trend hist in
  let known := trend ∈ [lit "up"; lit "down"; lit "stable"] in
  (crop_rate.valid_fields name price unit market trend -> result = Return built) /\
  ((price < 0)%Q <->
   result = Raise (crop_rate.ValueError "Current price cannot be negative")) /\
  (~ (price < 0)%Q -> ~ known ->
   result = Raise (crop_rate.ValueError "Trend must be 'up', 'down', or 'stable'")) /\
  (~ (price < 0)%Q -> known -> strip name = [] ->
   result = Raise (crop_rate.ValueError "Crop name cannot be empty")) /\
  (~ (price < 0)%Q -> known -> strip name <> [] -> strip unit = [] ->
   result = Raise (crop_rate.ValueError "Unit cannot be empty")) /\
  (~ (price < 0)%Q -> known -> strip name <> [] -> strip unit <> [] ->
   strip market = [] ->
   result = Raise (crop_rate.ValueError "Market location cannot be empty")) /\
  (forall r, result = Return r ->
     r = built /\ ~ (price < 0)%Q /\ known /\
     strip name <> [] /\ strip unit <> [] /\ strip market <> []).
Proof.
  cbv zeta. split; [apply crop_rate_new_valid|].
  unfold crop_rate.new, crop_rate.post_init.
  cbn [crop_rate.current_price crop_rate.trend crop_rate.crop_name crop_rate.unit
       crop_rate.market_location].
  destruct (Num.ltb price 0) eqn:Hprice.
  { apply ltb_lt in Hprice.
    split; [split; [reflexivity|intros _; exact Hprice]|].
    split; [intros H; destruct (H Hprice)|].
    split; [intros H; destruct (H Hprice)|].
    split; [intros H; destruct (H Hprice)|].
    split; [intros H; destruct (H Hprice)|].
    intros r E. discriminate E. }
  apply ltb_ge in Hprice.
  assert (~ (price < 0)%Q) as Hnot by (apply Qle_not_lt, Hprice).
  case_bool_decide as Htrend; cbn [negb].
  2:{ split; [split; [intros H; destruct (Hnot H)|intros E; vm_compute in E; discriminate E]|].
      split; [reflexivity|].
      split; [intros _ H; destruct (Htrend H)|].
      split; [intros _ H; destruct (Htrend H)|].
      split; [intros _ H; destruct (Htrend H)|].
      intros r E. discriminate E. }
  destruct (truthy (strip name)) eqn:Hname; cbn [negb].
  2:{ assert (strip name = []) as Hn by (destruct (strip name); [reflexivity|discriminate Hname]).
      split; [split; [intros H; destruct (Hnot H)|intros E; vm_compute in E; discriminate E]|].
      split; [intros _ H; destruct (H Htrend)|].
      split; [reflexivity|].
      split; [intros _ _ H; destruct (H Hn)|].
      split; [intros _ _ H; destruct (H Hn)|].
      intros r E. discriminate E. }
  apply truthy_nonempty in Hname.
  destruct (truthy (strip unit)) eqn:Hunit; cbn [negb].
  2:{ assert (strip unit = []) as Hn by (destruct (strip unit); [reflexivity|discriminate Hunit]).
      split; [split; [intros H; destruct (Hnot H)|intros E; vm_compute in E; discriminate E]|].
      split; [intros _ H; destruct (H Htrend)|].
      split; [intros _ _ H; destruct (Hname H)|].
      split; [reflexivity|].
      split; [intros _ _ _ H; destruct (H Hn)|].
      intros r E. discriminate E. }
  apply truthy_nonempty in Hunit.
  destruct (truthy (strip market)) eqn:Hmarket; cbn [negb].
  2:{ assert (strip market = []) as Hn
        by (destruct (strip market); [reflexivity|discriminate Hmarket]).
      split; [split; [intros H; destruct (Hnot H)|intros E; vm_compute in E; discriminate E]|].
      split; [intros _ H; destruct (H Htrend)|].
      split; [intros _ _ H; destruct (Hname H)|].
      split; [intros _ _ _ H; destruct (Hunit H)|].
      split; [reflexivity|].
      intros r E. discriminate E. }
  apply truthy_nonempty in Hmarket.
  split; [split; [intros H; destruct (Hnot H)|intros E; discriminate E]|].
  split; [intros _ H; destruct (H Htrend)|].
  split; [intros _ _ H; destruct (Hname H)|].
  split; [intros _ _ _ H; destruct (Hunit H)|].
  split; [intros _ _ _ _ H; destruct (Hmarket H)|].
  intros r E. injection E as <-. repeat split; assumption.
Qed.

Lemma crop_rate_new_trend name price unit market time trend hist r :
  crop_rate.new name price unit market time trend hist = Return r ->
  crop_rate.trend r ∈ [lit "up"; lit "down"; lit "stable"].
Proof.
  intros Hnew.
  destruct (crop_rate_new_cases name price unit market time trend hist)
    as [[(_ & Htrend & _) E]|[_ (msg & E)]]; [|congruence].
  rewrite E in Hnew. by injection Hnew as <-.
Qed.

(** X17. On records that the constructor has accepted, the trend symbol
    tells the trend: two such records with the same symbol have the same
    trend. *)
Theorem get_trend_indicator_tells_trend
    name1 price1 unit1 market1 time1 trend1 hist1 r1
    name2 price2 unit2 market2 time2 trend2 hist2 r2 :
  crop_rate.new name1 price1 unit1 market1 time1 trend1 hist1 = Return r1 ->
  crop_rate.new name2 price2 unit2 market2 time2 trend2 hist2 = Return r2 ->
  crop_rate.get_trend_indicator r1 = crop_rate.get_trend_indicator r2 ->
  crop_rate.trend r1 = crop_rate.trend r2.
Proof.
  intros H1 H2. apply crop_rate_new_trend in H1, H2.
  apply list_elem_of_In in H1, H2. simpl in H1, H2.
  unfold crop_rate.get_trend_indicator.
  destruct H1 as [<-|[<-|[<-|[]]]], H2 as [<-|[<-|[<-|[]]]];
    try reflexivity; intros E; vm_compute in E; discriminate.
Qed.

Lemma get_trend_indicator_tells_trend_witness :
  crop_rate.trend
    (crop_rate.Build_CropRate (lit "Wheat") 2500 (lit "quintal") (lit "Pune Mandi")
       0 (lit "down") None)
  = crop_rate.trend
      (crop_rate.Build_CropRate (lit "Rice") 3200 (lit "quintal") (lit "Mumbai Mandi")
         5 (lit "down") (Some [])).
Proof.
  apply (get_trend_indicator_tells_trend
           (lit "Wheat") 2500 (lit "quintal") (lit "Pune Mandi") 0 (lit "down") None _
           (lit "Rice") 3200 (lit "quintal") (lit "Mumbai Mandi") 5 (lit "down")
           (Some []) _).
  - vm_compute. reflexivity.
  - vm_compute. reflexivity.
  - vm_compute. reflexivity.
Defined.

(** A record whose trend was overwritten with another text shows the
    symbol of a stable trend. *)
Example get_trend_indicator_fallback :
  crop_rate.get_trend_indicator
    (crop_rate.Build_CropRate (lit "Wheat") 2500 (lit "quintal") (lit "Pune Mandi")
       0 (lit "rising") None)
  = lit "→".
Proof. vm_compute. reflexivity. Qed.

End CropRateMore.

(** ** Negotiation ids *)

Section Negotiation.
Import Py negotiation_assistant.

Lemma split_at_first (c : char) (x1 x2 y1 y2 : str) :
  c ∉ x1 -> c ∉ x2 -> x1 ++ c :: y1 = x2 ++ c :: y2 -> x1 = x2 /\ y1 = y2.
Proof.
  revert x2. induction x1 as [|a x1 IH]; intros [|b x2] H1 H2 E; simpl in E.
  - by injection E.
  - injection E as <- _. destruct H2. left.
  - injection E as -> _. destruct H1. left.
  - injection E as <- E. apply not_elem_of_cons in H1 as [_ H1], H2 as [_ H2].
    destruct (IH x2 H1 H2 E) as [-> ->]. done.
Qed.

(** X18. The id of a negotiation tells the buyer, the seller and the crop
    apart as long as neither the buyer id nor the seller id contains an
    underscore. *)
Theorem start_negotiation_injective buyer1 seller1 crop1 buyer2 seller2 crop2 :
  underscore ∉ buyer1 -> underscore ∉ seller1 ->
  underscore ∉ buyer2 -> underscore ∉ seller2 ->
  start_negotiation buyer1 seller1 crop1 = start_negotiation buyer2 seller2 crop2 ->
  buyer1 = buyer2 /\ seller1 = seller2 /\ crop1 = crop2.
Proof.
  intros Hb1 Hs1 Hb2 Hs2 E. unfold start_negotiation in E.
  apply app_inv_head in E.
  change (lit "_") with [underscore] in E. simpl in E.
  apply split_at_first in E as [-> E]; [|done..].
  apply split_at_first in E as [-> ->]; done.
Qed.

Lemma start_negotiation_injective_witness :
  lit "ravi" = lit "ravi" /\ lit "meena" = lit "meena" /\ lit "wheat" = lit "wheat".
Proof.
  apply (start_negotiation_injective (lit "ravi") (lit "meena") (lit "wheat")
           (lit "ravi") (lit "meena") (lit "wheat")).
  1-4: (intros Hin; apply list_elem_of_In in Hin; vm_compute in Hin;
        repeat (destruct Hin as [Hin|Hin]; [discriminate Hin|]); exact Hin).
  reflexivity.
Defined.

(** With an underscore in an id two different negotiations get the same
    id. *)
Example start_negotiation_collision :
  start_negotiation (lit "a_b") (lit "c") (lit "wheat")
  = start_negotiation (lit "a") (lit "b_c") (lit "wheat") /\
  lit "a_b" <> lit "a".
Proof. split; [reflexivity|discriminate]. Qed.

End Negotiation.

(** ** The interface texts and the chat *)

Section InterfaceTexts.
Import Py app.

Lemma literal_get_None {V} (items : list (str * V)) key :
  key ∉ map fst items -> literal_get key items = None.
Proof.
  induction items as [|[k v] items IH]; intros Hkey; [done|].
  simpl in *. apply not_elem_of_cons in Hkey as [Hne Hkey].
  rewrite IH by done. by rewrite bool_decide_eq_false_2.
Qed.

Lemma literal_get_is_Some {V} (items : list (str * V)) key :
  key ∈ map fst items -> is_Some (literal_get key items).
Proof.
  induction items as [|[k v] items IH]; intros Hkey; simpl in *.
  { by apply elem_of_nil in Hkey. }
  destruct (literal_get key items) eqn:Hlater; [eauto|].
  apply elem_of_cons in Hkey as [->|Hkey].
  - rewrite bool_decide_eq_true_2 by done. eauto.
  - apply IH in Hkey as [? ?]. done.
Qed.

(** Each of the three tables has the keys of the English one. *)
Lemma ui_tables_keys :
  map fst UI_TRANSLATIONS = [lit "marathi"; lit "hindi"; lit "english"] /\
  Forall (fun lt => map fst lt.2 = ui_keys) UI_TRANSLATIONS /\
  length ui_keys = 20.
Proof. vm_compute. repeat constructor. Qed.

Lemma literal_get_elem {V} (items : list (str * V)) key v :
  literal_get key items = Some v -> (key, v) ∈ items.
Proof.
  induction items as [|[k v'] items IH]; intros Hget; [done|]. simpl in Hget.
  destruct (literal_get key items) as [later|].
  - injection Hget as ->. right. by apply IH.
  - case_bool_decide as Hk; [|done]. injection Hget as ->. subst. left.
Qed.

Lemma ui_table_keys language table :
  literal_get language UI_TRANSLATIONS = Some table -> map fst table = ui_keys.
Proof.
  intros Hget. apply literal_get_elem in Hget.
  destruct ui_tables_keys as (_ & Hall & _). rewrite Forall_forall in Hall.
  exact (Hall _ Hget).
Qed.

(** X19. [get_text] always returns.  The three tables have the same
    twenty keys, so for a known language and a known key the text shown is
    the entry of that language, never the raw key; for any other language
    it is what English shows; and an unknown key is shown as it is. *)
Theorem get_text_shows_table_entry language key :
  (exists shown, get_text language key = Return shown) /\
  (language ∈ [lit "marathi"; lit "hindi"; lit "english"] -> key ∈ ui_keys ->
   exists table shown,
     literal_get language UI_TRANSLATIONS = Some table /\
     literal_get key table = Some shown /\
     get_text language key = Return shown) /\
  (language ∉ [lit "marathi"; lit "hindi"; lit "english"] ->
   get_text language key = get_text (lit "english") key) /\
  (key ∉ ui_keys -> get_text language key = Return key).
Proof.
  destruct ui_tables_keys as (Hlangs & _ & _).
  destruct (literal_get_is_Some UI_TRANSLATIONS (lit "english")) as [english Hen].
  { rewrite Hlangs. apply list_elem_of_In. simpl. tauto. }
  unfold get_text. rewrite Hen.
  split; [eauto|]. split; [|split].
  - intros Hlang Hkey. rewrite <- Hlangs in Hlang.
    destruct (literal_get_is_Some _ _ Hlang) as [table Htable].
    rewrite Htable. simpl.
    rewrite <- (ui_table_keys _ _ Htable) in Hkey.
    destruct (literal_get_is_Some _ _ Hkey) as [shown Hshown].
    exists table, shown. by rewrite Hshown.
  - intros Hlang. rewrite <- Hlangs in Hlang.
    by rewrite (literal_get_None _ _ Hlang).
  - intros Hkey.
    assert (forall table, literal_get language UI_TRANSLATIONS = Some table \/
                          table = english -> literal_get key table = None) as Hnone.
    { intros table Htable. apply literal_get_None.
      destruct Htable as [Htable| ->]; by erewrite ui_table_keys. }
    destruct (literal_get language UI_TRANSLATIONS) as [table|] eqn:Htable; simpl.
    + by rewrite (Hnone table) by auto.
    + by rewrite (Hnone english) by auto.
Qed.

End InterfaceTexts.

Section ChatMore.
Import Py app translation_service.
Context {unicode : Unicode}.

Lemma chat_submit_shape service ai_responses choice time1 time2 user_input state s :
  user_input <> [] ->
  exists reply,
    negotiation_history
      (chat_submit service ai_responses choice time1 time2 user_input state s).1 =
      negotiation_history state
      ++ [{| role := user_role state; content := user_input; timestamp := time1 |};
          {| role := lit "ai_assistant"; content := reply; timestamp := time2 |}] /\
    language (chat_submit service ai_responses choice time1 time2 user_input state s).1
    = language state /\
    user_role (chat_submit service ai_responses choice time1 time2 user_input state s).1
    = user_role state.
Proof.
  intros Hinput. unfold chat_submit.
  apply truthy_nonempty in Hinput. rewrite Hinput. cbn [negb].
  destruct (negb _); [destruct service as [self|]|].
  - destruct (translate self _ (language state) s) as [[r|e] s'];
      eexists; rewrite <- app_assoc; simpl; done.
  - eexists. rewrite <- app_assoc. simpl. done.
  - eexists. rewrite <- app_assoc. simpl. done.
Qed.

(** X20. Sending a message appends exactly two entries to the history
    and changes nothing before them: the input with the current role,
    then the reply with the role "ai_assistant".  The reply is the picked
    candidate, or what [translate] returns for it when the language is
    not English and the services exist; language and role stay. *)
Theorem chat_submit_appends service ai_responses choice time1 time2 user_input state s :
  user_input <> [] ->
  let picked := nth choice ai_responses [] in
  let result := chat_submit service ai_responses choice time1 time2 user_input state s in
  exists reply,
    negotiation_history result.1 =
      negotiation_history state
      ++ [{| role := user_role state; content := user_input; timestamp := time1 |};
          {| role := lit "ai_assistant"; content := reply; timestamp := time2 |}] /\
    language result.1 = language state /\ user_role result.1 = user_role state /\
    match service with
    | Some self =>
        if bool_decide (language state = lit "english")
        then reply = picked /\ result.2 = s
        else translate self picked (language state) s = (Return reply, result.2)
    | None => reply = picked /\ result.2 = s
    end.
Proof.
  intros Hinput. cbv zeta. unfold chat_submit.
  apply truthy_nonempty in Hinput. rewrite Hinput. cbn [negb].
  case_bool_decide as Henglish; cbn [negb].
  - eexists. rewrite <- app_assoc. simpl. repeat split. by destruct service.
  - destruct service as [self|].
    + destruct (translate_never_raises self (nth choice ai_responses [])
                  (language state) s) as [reply Hreply].
      destruct (translate self _ (language state) s) as [r s'] eqn:Hrun.
      simpl in Hreply. subst r. exists reply. rewrite <- app_assoc. simpl. done.
    + eexists. rewrite <- app_assoc. simpl. done.
Qed.

(** X21. A message is shown on the side of the user exactly when its role
    is the current role.  So the input just sent is shown as the user's
    and the reply as the assistant's; after the other role is selected
    both are shown as the assistant's. *)
Theorem chat_sides_follow_current_role
    service ai_responses choice time1 time2 user_input state s other :
  user_input <> [] ->
  user_role state <> lit "ai_assistant" ->
  other <> user_role state -> other <> lit "ai_assistant" ->
  let state' :=
    (chat_submit service ai_responses choice time1 time2 user_input state s).1 in
  let sent := drop (length (negotiation_history state)) (negotiation_history state') in
  map (chat_message_side state') sent = [lit "user"; lit "assistant"] /\
  map (chat_message_side (select_role other state')) sent
  = [lit "assistant"; lit "assistant"].
Proof.
  intros Hinput Hrole Hother Hother'. cbv zeta.
  destruct (chat_submit_shape service ai_responses choice time1 time2 user_input
              state s Hinput) as (reply & Hhist & _ & Hsame).
  rewrite Hhist, drop_app_length. unfold chat_message_side, select_role.
  rewrite Hsame. rewrite (bool_decide_eq_false_2 (other = _)) by done.
  cbn [negb map role user_role].
  rewrite (bool_decide_eq_true_2 (user_role state = _)) by done.
  rewrite (bool_decide_eq_false_2 (lit "ai_assistant" = user_role state)) by done.
  rewrite (bool_decide_eq_false_2 (user_role state = other)) by done.
  by rewrite (bool_decide_eq_false_2 (lit "ai_assistant" = other)).
Qed.

End ChatMore.

Section ChatRuns.
Import Py app translation_service.
Existing Instance ascii_tables.

Lemma chat_submit_appends_witness :
  let state := {| language := lit "hindi"; user_role := lit "buyer";
                  negotiation_history := [] |} in
  let picked := nth 2 [lit "a"; lit "b"; lit "Let me help you"; lit "d"] [] in
  let result :=
    chat_submit (Some (new_service (Some echo_gateway)))
      [lit "a"; lit "b"; lit "Let me help you"; lit "d"] 2 10 11
      (lit "Can you do 2400?") state fresh_session in
  exists reply,
    negotiation_history result.1 =
      negotiation_history state
      ++ [{| role := user_role state; content := lit "Can you do 2400?";
             timestamp := 10 |};
          {| role := lit "ai_assistant"; content := reply; timestamp := 11 |}] /\
    language result.1 = language state /\ user_role result.1 = user_role state /\
    (if bool_decide (language state = lit "english")
     then reply = picked /\ result.2 = fresh_session
     else translate (new_service (Some echo_gateway)) picked (language state)
            fresh_session = (Return reply, result.2)).
Proof.
  apply (chat_submit_appends (Some (new_service (Some echo_gateway)))
           [lit "a"; lit "b"; lit "Let me help you"; lit "d"] 2 10 11
           (lit "Can you do 2400?")
           {| language := lit "hindi"; user_role := lit "buyer";
              negotiation_history := [] |} fresh_session).
  vm_compute. discriminate.
Defined.

Lemma chat_sides_follow_current_role_witness :
  let state := {| language := lit "english"; user_role := lit "buyer";
                  negotiation_history := [] |} in
  let state' :=
    (chat_submit None [lit "a"; lit "b"; lit "c"; lit "d"] 0 10 11
       (lit "Can you do 2400?") state fresh_session).1 in
  let sent := drop (length (negotiation_history state)) (negotiation_history state') in
  map (chat_message_side state') sent = [lit "user"; lit "assistant"] /\
  map (chat_message_side (select_role (lit "seller") state')) sent
  = [lit "assistant"; lit "assistant"].
Proof.
  apply (chat_sides_follow_current_role None [lit "a"; lit "b"; lit "c"; lit "d"]
           0 10 11 (lit "Can you do 2400?")
           {| language := lit "english"; user_role := lit "buyer";
              negotiation_history := [] |} fresh_session (lit "seller")).
  all: vm_compute; discriminate.
Defined.

End ChatRuns.
